(** * The Ramaris SDK client ([src/client.ts], [src/errors.ts], [src/types.ts])

    A shallow embedding of the TypeScript client: URL construction, the
    rate-limit snapshot, the completion of a request and the normalisation
    of error responses, followed by the properties of these operations.

    Conventions of the embedding.
    - A JavaScript string is a [string]: a sequence of bytes, as a header
      value is; text outside ASCII is its byte encoding.
    - A JavaScript number is a [number]: [NaN] or an integer.  The client
      never computes with numbers, it passes them on, parses them and
      prints them.  [Int z] stands for a number when [z] is a safe
      integer, of magnitude below 2^53: there printing and parsing are
      exact.  Fractions, infinities and the sign of zero have no
      representation, and what is proved about the print or the parse of
      a number is proved for safe integers.
    - A parsed body is plain data: what [JSON.parse] builds.  Converting
      such a value to a string can throw, and the conversion is partial.
    - [await], [throw] and [try]/[catch] are a completion: [Return v] or
      [Throw e].  One call of the client is one step from a client state
      to a client state and a completion; the network is a function from
      the request that is sent to what [fetch] settles with. *)

From Stdlib Require Import ZArith String Ascii DecimalString DecimalPos Bool.
From stdpp Require Import base option gmap strings list.

Local Open Scope Z_scope.

(** ** The platform: values, strings, numbers, headers *)

Module JS.

Inductive number := NaN | Int (z : Z).

(** Values that [JSON.parse] produces, and [undefined]. An object is the
    finite map of its own properties. *)
#[warnings="-register-all"]
Inductive value :=
  | VUndefined
  | VNull
  | VBool (b : bool)
  | VNum (n : number)
  | VStr (s : string)
  | VArr (l : list value)
  | VObj (m : gmap string value).

(** Number::toString, radix 10: the decimal numeral of a safe integer.
    (From 2^53 on the platform prints the shortest numeral that reads
    back as the same double, and from 10^21 on in exponent form.) *)
Definition number_to_string (n : number) : string :=
  match n with
  | NaN => "NaN"
  | Int z => NilZero.string_of_int (Z.to_int z)
  end.

Fixpoint join (sep : string) (l : list string) : string :=
  match l with
  | [] => ""
  | [s] => s
  | s :: l' => s +:+ sep +:+ join sep l'
  end.

(** ToString on what [JSON.parse] builds, [None] when it throws a
    TypeError.  A string is itself.  An array is printed by [join]: its
    elements converted in turn and joined by a comma, null and undefined
    elements empty.  An object inherits a [toString] that answers
    "[object Object]", unless a property of its own hides it: such a
    property is data, not a function, neither [toString] nor [valueOf]
    yields a primitive then, and the conversion throws. *)
Fixpoint ToString (v : value) : option string :=
  match v with
  | VUndefined => Some "undefined"
  | VNull => Some "null"
  | VBool true => Some "true"
  | VBool false => Some "false"
  | VNum n => Some (number_to_string n)
  | VStr s => Some s
  | VArr l =>
      option_map (join ",")
        ((fix elements (l : list value) : option (list string) :=
            match l with
            | [] => Some []
            | x :: l' =>
                match (match x with
                       | VUndefined | VNull => Some ""
                       | _ => ToString x
                       end) with
                | Some s =>
                    match elements l' with
                    | Some r => Some (s :: r)
                    | None => None
                    end
                | None => None
                end
            end) l)
  | VObj m =>
      match m !! "toString" with
      | Some _ => None
      | None => Some "[object Object]"
      end
  end.

(** [v == null]: the values that [?.] and [??] treat as missing. *)
Definition nullish (v : value) : bool :=
  match v with VUndefined | VNull => true | _ => false end.

(** [a ?? b] *)
Definition coalesce (a b : value) : value := if nullish a then b else a.

(** The property names the client reads.  None of them is inherited from
    [Object.prototype] or from the prototype of a string, number, boolean
    or array, so reading one from anything but an object that owns it
    yields [undefined]. *)
Inductive prop := p_data | p_error | p_code | p_message | p_retryAfter.

Definition prop_name (p : prop) : string :=
  match p with
  | p_data => "data"
  | p_error => "error"
  | p_code => "code"
  | p_message => "message"
  | p_retryAfter => "retryAfter"
  end.

(** [v?.p] *)
Definition get_opt (v : value) (p : prop) : value :=
  match v with
  | VObj m => default VUndefined (m !! prop_name p)
  | _ => VUndefined
  end.

(** [s.includes(search)] *)
Fixpoint includes (s search : string) : bool :=
  String.prefix search s ||
  match s with
  | String _ s' => includes s' search
  | EmptyString => false
  end.

(** WhiteSpace and LineTerminator code units below 256. *)
Definition is_white_space (c : ascii) : bool :=
  match c with
  | "009" | "010" | "011" | "012" | "013" | " " | "160" => true
  | _ => false
  end%char.

Fixpoint trim_start (s : string) : string :=
  match s with
  | String c s' => if is_white_space c then trim_start s' else s
  | EmptyString => s
  end.

Definition digit_of (c : ascii) : option Z :=
  let n := Z.of_N (N_of_ascii c) in
  if (48 <=? n) && (n <=? 57) then Some (n - 48) else None.

(** The value of the longest prefix of decimal digits; [None] when the
    prefix is empty. *)
Fixpoint digits (acc : option Z) (s : string) : option Z :=
  match s with
  | String c s' =>
      match digit_of c with
      | Some d => digits (Some (10 * default 0 acc + d)) s'
      | None => acc
      end
  | EmptyString => acc
  end.

(** [parseInt(s, 10)]: leading white space is skipped, then an optional
    sign, then the longest run of decimal digits; [NaN] when there is no
    digit.  The result is the number read when that is a safe integer.
    (Beyond, the platform rounds to a double, and may approximate a
    numeral of more than 20 digits.) *)
Definition parseInt (s : string) : number :=
  let t := trim_start s in
  let '(sign, r) :=
    match t with
    | String "-" r => (-1, r)
    | String "+" r => (1, r)
    | _ => (1, t)
    end in
  match digits None r with
  | Some z => Int (sign * z)
  | None => NaN
  end.

(** [s.replace(/\/+$/, '')]: the match is the maximal run of slashes that
    ends the string. *)
Fixpoint strip_trailing_slashes (s : string) : string :=
  match s with
  | EmptyString => EmptyString
  | String c s' =>
      match strip_trailing_slashes s' with
      | EmptyString => if Ascii.eqb c "/" then EmptyString else String c EmptyString
      | r => String c r
      end
  end.

(** [Headers]: a lower-case header name maps to its combined value;
    [get] is lookup, [null] for a name that is not there. *)
Abbreviation Headers := (gmap string string).

(** The truth value of what [Headers.get] returns: [null] and the empty
    string are false. *)
Definition truthy (o : option string) : bool :=
  match o with
  | Some s => negb (String.eqb s "")
  | None => false
  end.

(** The application/x-www-form-urlencoded byte serializer: letters,
    digits and the bytes [*-._] stand for themselves, a space becomes a
    plus sign, every other byte is percent-encoded. *)
Definition hex_digit (n : N) : ascii :=
  ascii_of_N (if (n <? 10)%N then 48 + n else 55 + n)%N.

Definition urlencode_byte (c : ascii) : string :=
  let n := N_of_ascii c in
  if ((48 <=? n) && (n <=? 57) || (65 <=? n) && (n <=? 90) ||
      (97 <=? n) && (n <=? 122) ||
      (n =? 42) || (n =? 45) || (n =? 46) || (n =? 95))%N
  then String c EmptyString
  else if (n =? 32)%N then "+"
  else String "%" (String (hex_digit (n / 16)) (String (hex_digit (n mod 16)) EmptyString)).

Fixpoint urlencode (s : string) : string :=
  match s with
  | EmptyString => EmptyString
  | String c s' => urlencode_byte c +:+ urlencode s'
  end.

(** [URLSearchParams]: the list of name-value pairs, in order. *)
Module URLSearchParams.

Definition t := list (string * string).

Definition new : t := [].

(** [set]: the first pair of that name takes the value and the other
    pairs of that name go; a new name is appended. *)
Fixpoint set (name val : string) (l : t) : t :=
  match l with
  | [] => [(name, val)]
  | (n, v) :: l' =>
      if String.eqb n name
      then (name, val) :: List.filter (fun p => negb (String.eqb (fst p) name)) l'
      else (n, v) :: set name val l'
  end.

Definition toString (l : t) : string :=
  join "&" (List.map (fun p => urlencode (fst p) +:+ "=" +:+ urlencode (snd p)) l).

End URLSearchParams.

End JS.

Import JS.

(** ** The platform: [fetch] *)

Module Fetch.

(** A [Response], as far as the client looks at it: the status, the
    headers, and what [response.json()] settles with, [None] when it
    rejects because the body is not JSON text. *)
Record Response := {
  status : Z;
  headers : Headers;
  json : option value;
}.

(** [response.ok] *)
Definition ok (response : Response) : bool :=
  (200 <=? status response) && (status response <=? 299).

(** The second argument of [fetch]. *)
Record RequestInit := {
  init_method : string;
  init_headers : list (string * string);
}.

(** What a rejected [fetch] throws: an instance of [Error] with its
    message, or any other value. *)
Inductive thrown :=
  | ThrownError (msg : string)
  | ThrownOther (v : value).

Inductive settled :=
  | Resolved (response : Response)
  | Rejected (err : thrown).

(** The network: what [fetch(url, init)] settles with. *)
Definition fetch_fn := string -> RequestInit -> settled.

End Fetch.

Import Fetch.

(** ** [src/errors.ts] *)

Module errors.

Record RamarisError := {
  name : string;
  message : string;
  code : value;
  status : Z;
}.

(** [new RamarisError(message, code, status)].  [super(message)] runs
    first: the constructor of [Error] converts the message to a string,
    and when that throws the constructor throws: [None]. *)
Definition new_RamarisError (message : value) (code : value) (status : Z)
    : option RamarisError :=
  msg ← ToString message;
  Some {| name := "RamarisError"; message := msg; code := code; status := status |}.

(** [class RateLimitError extends RamarisError] *)
Record RateLimitError := {
  super :> RamarisError;
  retryAfter : value;
}.

Definition new_RateLimitError (message : value) (retryAfter : value)
    : option RateLimitError :=
  super ← new_RamarisError message (VStr "RATE_LIMITED") 429;
  Some {| super := {| name := "RateLimitError"; message := errors.message super;
                      code := errors.code super; status := errors.status super |};
          retryAfter := retryAfter |}.

End errors.

Coercion errors.super : errors.RateLimitError >-> errors.RamarisError.

(** ** Completions *)

(** What a call can throw: an error of the client's own hierarchy, the
    rejection of [response.json()], or a [TypeError]: that of reading a
    property of [null] or [undefined], or that of a message that does
    not convert to a string. *)
Inductive exn :=
  | ThrowRamarisError (e : errors.RamarisError)
  | ThrowRateLimitError (e : errors.RateLimitError)
  | SyntaxError
  | TypeError.

Inductive completion (A : Type) :=
  | Return (a : A)
  | Throw (e : exn).

Arguments Return {A} a.
Arguments Throw {A} e.

#[global] Instance completion_ret : MRet completion := fun A a => Return a.

#[global] Instance completion_bind : MBind completion := fun A B k c =>
  match c with
  | Return a => k a
  | Throw e => Throw e
  end.

(** [throw new E(...)]: the constructor runs first, and when it throws a
    TypeError that is what the statement throws. *)
Definition throw_new {A E : Type} (wrap : E -> exn) (constructed : option E)
    : completion A :=
  match constructed with
  | Some e => Throw (wrap e)
  | None => Throw TypeError
  end.

(** [v.p]: reading a property of [null] or [undefined] throws. *)
Definition get_strict (v : value) (p : prop) : completion value :=
  if nullish v then Throw TypeError else Return (get_opt v p).

(** [await response.json()] *)
Definition await_json (response : Response) : completion value :=
  match json response with
  | Some v => Return v
  | None => Throw SyntaxError
  end.

(** ** [src/types.ts] *)

Module types.

Record PaginationParams := {
  page : option number;
  pageSize : option number;
}.

Record RateLimitInfo := {
  limit : number;
  remaining : number;
  reset : number;
}.

Record ClientOptions := {
  opt_apiKey : string;
  opt_baseUrl : option string;
}.

End types.

Import types.

(** ** [src/client.ts] *)

Definition DEFAULT_BASE_URL : string := "https://www.ramaris.app/api/v1".

(** The state of a [RamarisClient]: the two read-only fields and the
    public [rateLimit], [None] for [null]. *)
Record RamarisClient := {
  apiKey : string;
  baseUrl : string;
  rateLimit : option RateLimitInfo;
}.

(** The part of the constructor that sets fields; the resource tables
    [strategies], [wallets] and [me] are the functions further down. *)
Definition constructor (options : ClientOptions) : RamarisClient :=
  {| apiKey := opt_apiKey options;
     baseUrl := strip_trailing_slashes (default DEFAULT_BASE_URL (opt_baseUrl options));
     rateLimit := None |}.

Definition buildUrl (this : RamarisClient) (path : string)
    (params : option PaginationParams) : string :=
  let url := baseUrl this +:+ path in
  match params with
  | None => url
  | Some params =>
      let searchParams := URLSearchParams.new in
      let searchParams :=
        match page params with
        | Some p => URLSearchParams.set "page" (number_to_string p) searchParams
        | None => searchParams
        end in
      let searchParams :=
        match pageSize params with
        | Some p => URLSearchParams.set "pageSize" (number_to_string p) searchParams
        | None => searchParams
        end in
      let qs := URLSearchParams.toString searchParams in
      if negb (String.eqb qs "") then url +:+ "?" +:+ qs else url
  end.

Definition updateRateLimit (this : RamarisClient) (headers : Headers) : RamarisClient :=
  let limit := headers !! "x-ratelimit-limit" in
  let remaining := headers !! "x-ratelimit-remaining" in
  let reset := headers !! "x-ratelimit-reset" in
  match limit, remaining, reset with
  | Some limit_s, Some remaining_s, Some reset_s =>
      if truthy limit && truthy remaining && truthy reset then
        {| apiKey := apiKey this;
           baseUrl := baseUrl this;
           rateLimit := Some {| limit := parseInt limit_s;
                                remaining := parseInt remaining_s;
                                reset := parseInt reset_s |} |}
      else this
  | _, _, _ => this
  end.

(** The [try] block of [handleErrorResponse]: the body is read only under
    a content type that includes "application/json", and a rejected
    [response.json()] leaves it [null]. *)
Definition errorBody (response : Response) : value :=
  match headers response !! "content-type" with
  | Some contentType =>
      if includes contentType "application/json" then
        match await_json response with
        | Return body => body
        | Throw _ => VNull
        end
      else VNull
  | None => VNull
  end.

(** The declared result type is [Promise<never>], which is erased when the
    code runs; that every path throws is proved below, not assumed. *)
Definition handleErrorResponse (response : Response) : completion unit :=
  let body := errorBody response in
  let code := coalesce (get_opt (get_opt body p_error) p_code) (VStr "UNKNOWN_ERROR") in
  let message :=
    coalesce (get_opt (get_opt body p_error) p_message)
             (VStr ("HTTP " +:+ number_to_string (Int (Fetch.status response)))) in
  if Fetch.status response =? 429 then
    let retryAfter := coalesce (get_opt (get_opt body p_error) p_retryAfter) (VNum (Int 0)) in
    throw_new ThrowRateLimitError (errors.new_RateLimitError message retryAfter)
  else
    throw_new ThrowRamarisError
      (errors.new_RamarisError message code (Fetch.status response)).

(** The options of the one [fetch] call. *)
Definition requestInit (this : RamarisClient) : RequestInit :=
  {| init_method := "GET";
     init_headers := [("Authorization", "Bearer " +:+ apiKey this);
                      ("Accept", "application/json")] |}.

(** What one call of the client does: the [fetch] calls it made, in order,
    the client afterwards, and the completion of the promise. *)
Record outcome := {
  calls : list (string * RequestInit);
  client : RamarisClient;
  result : completion value;
}.

Section Network.

Variable fetch : fetch_fn.

Definition request (this : RamarisClient) (path : string)
    (params : option PaginationParams) : outcome :=
  let url := buildUrl this path params in
  let init := requestInit this in
  match fetch url init with
  | Rejected err =>
      {| calls := [(url, init)];
         client := this;
         result :=
           throw_new ThrowRamarisError
             (errors.new_RamarisError
                (match err with
                 | ThrownError msg => VStr msg
                 | ThrownOther _ => VStr "Network error"
                 end)
                (VStr "NETWORK_ERROR") 0) |}
  | Resolved response =>
      {| calls := [(url, init)];
         client := updateRateLimit this (headers response);
         result :=
           (if negb (ok response) then handleErrorResponse response else Return ()) ;;
           await_json response |}
  end.

Definition getPaginated (this : RamarisClient) (path : string)
    (params : option PaginationParams) : outcome :=
  request this path params.

Definition getSingle (this : RamarisClient) (path : string) : outcome :=
  let o := request this path None in
  {| calls := calls o;
     client := client o;
     result := response ← result o; get_strict response p_data |}.

Definition health (this : RamarisClient) : outcome :=
  request this "/health" None.

Definition strategies_list (this : RamarisClient) (params : option PaginationParams) :=
  getPaginated this "/strategies" params.

Definition strategies_get (this : RamarisClient) (shareId : string) :=
  getSingle this ("/strategies/" +:+ shareId).

Definition strategies_watchlist (this : RamarisClient) (params : option PaginationParams) :=
  getPaginated this "/me/strategies/watchlist" params.

Definition wallets_list (this : RamarisClient) (params : option PaginationParams) :=
  getPaginated this "/wallets" params.

Definition wallets_get (this : RamarisClient) (id : number) :=
  getSingle this ("/wallets/" +:+ number_to_string id).

Definition me_profile (this : RamarisClient) := getSingle this "/me/profile".

Definition me_subscription (this : RamarisClient) := getSingle this "/me/subscription".

End Network.

(** ** The public methods, and a client over time *)

Inductive call :=
  | Health
  | StrategiesList (params : option PaginationParams)
  | StrategiesGet (shareId : string)
  | StrategiesWatchlist (params : option PaginationParams)
  | WalletsList (params : option PaginationParams)
  | WalletsGet (id : number)
  | MeProfile
  | MeSubscription.

Definition perform (fetch : fetch_fn) (this : RamarisClient) (c : call) : outcome :=
  match c with
  | Health => health fetch this
  | StrategiesList params => strategies_list fetch this params
  | StrategiesGet shareId => strategies_get fetch this shareId
  | StrategiesWatchlist params => strategies_watchlist fetch this params
  | WalletsList params => wallets_list fetch this params
  | WalletsGet id => wallets_get fetch this id
  | MeProfile => me_profile fetch this
  | MeSubscription => me_subscription fetch this
  end.

(** The client after a sequence of calls, each made against the network
    as it was at that moment. *)
Fixpoint run (this : RamarisClient) (steps : list (fetch_fn * call)) : RamarisClient :=
  match steps with
  | [] => this
  | (fetch, c) :: steps' => run (client (perform fetch this c)) steps'
  end.

(** ** Notions the properties are stated with *)

(** [body?.error?.p], the field of the error object of the body that
    [handleErrorResponse] read. *)
Definition error_field (response : Response) (p : prop) : value :=
  get_opt (get_opt (errorBody response) p_error) p.

(** An error of the client's own hierarchy. *)
Definition is_typed_error (e : exn) : bool :=
  match e with
  | ThrowRamarisError _ | ThrowRateLimitError _ => true
  | SyntaxError | TypeError => false
  end.

(** A header is present when [get] does not return [null]. *)
Definition present (h : Headers) (k : string) : Prop := is_Some (h !! k).

(** The string ends with a slash. *)
Fixpoint ends_with_slash (s : string) : bool :=
  match s with
  | EmptyString => false
  | String c EmptyString => Ascii.eqb c "/"
  | String _ s' => ends_with_slash s'
  end.

Fixpoint slashes (n : nat) : string :=
  match n with
  | O => EmptyString
  | S n' => String "/" (slashes n')
  end.

(** ** Sample inputs, after the test-suite *)

Definition test_client : RamarisClient :=
  constructor {| opt_apiKey := "rms_test_key"; opt_baseUrl := None |}.

Definition rate_headers (l r s : string) (h : Headers) : Headers :=
  <["x-ratelimit-limit" := l]>
    (<["x-ratelimit-remaining" := r]> (<["x-ratelimit-reset" := s]> h)).

Definition json_headers : Headers := {["content-type" := "application/json"]}.

Definition pagination : value :=
  VObj (<["page" := VNum (Int 1)]> (<["pageSize" := VNum (Int 20)]>
       (<["totalItems" := VNum (Int 100)]> {["totalPages" := VNum (Int 5)]}))).

Definition mockResponse (body : value) (status : Z) : Response :=
  {| Fetch.status := status;
     headers := rate_headers "1000" "999" "1700000000" json_headers;
     json := Some body |}.

Definition mockErrorResponse (status : Z) (code message : string)
    (retryAfter : option Z) (h : Headers) : Response :=
  {| Fetch.status := status;
     headers := h;
     json := Some (VObj {["error" :=
               VObj (<["code" := VStr code]> (<["message" := VStr message]>
                     (match retryAfter with
                      | Some n => {["retryAfter" := VNum (Int n)]}
                      | None => ∅
                      end)))]}) |}.

Definition rate_limited_response : Response :=
  mockErrorResponse 429 "RATE_LIMITED" "Rate limit exceeded" (Some 1800)
    (rate_headers "1000" "0" "1700001800" json_headers).

Definition plain_text_response (status : Z) : Response :=
  {| Fetch.status := status;
     headers := {["content-type" := "text/plain"]};
     json := None |}.

(** A network that answers every request with the same response. *)
Definition always (response : Response) : fetch_fn := fun _ _ => Resolved response.

(** A network on which no request completes. *)
Definition failing (err : thrown) : fetch_fn := fun _ _ => Rejected err.

(** A response that carries the three rate-limit headers, the first with
    an empty value. *)
Definition empty_limit_response : Response :=
  {| Fetch.status := 200;
     headers := rate_headers "" "999" "1700000000" json_headers;
     json := Some (VObj ∅) |}.

(** A 200 response whose body is a page of HTML. *)
Definition html_page_response : Response :=
  {| Fetch.status := 200;
     headers := {["content-type" := "text/html"]};
     json := None |}.

(** An error body in the shape the client reads, sent as
    application/problem+json. *)
Definition problem_json_response (status : Z) : Response :=
  mockErrorResponse status "NOT_FOUND" "Strategy not found" (Some 60)
    {["content-type" := "application/problem+json"]}.

(** A single-item envelope and a paginated one. *)
Definition item : value := VObj (<["id" := VNum (Int 456)]> {["status" := VStr "active"]}).

Definition single_envelope : gmap string value := {["data" := item]}.

Definition paginated_envelope : value :=
  VObj (<["data" := VArr [item]]> {["pagination" := pagination]}).

(** ** Further notions and sample inputs *)

(** The error as an instance of the base class, [None] for what is not
    an instance of [RamarisError]. *)
Definition as_RamarisError (e : exn) : option errors.RamarisError :=
  match e with
  | ThrowRamarisError e => Some e
  | ThrowRateLimitError e => Some (errors.super e)
  | SyntaxError | TypeError => None
  end.

(** The three rate-limit headers all carry a value. *)
Definition complete (h : Headers) : bool :=
  truthy (h !! "x-ratelimit-limit") && truthy (h !! "x-ratelimit-remaining") &&
  truthy (h !! "x-ratelimit-reset").

(** The path and the parameters each public method hands to [request]. *)
Definition path_of (c : call) : string :=
  match c with
  | Health => "/health"
  | StrategiesList _ => "/strategies"
  | StrategiesGet shareId => "/strategies/" +:+ shareId
  | StrategiesWatchlist _ => "/me/strategies/watchlist"
  | WalletsList _ => "/wallets"
  | WalletsGet id => "/wallets/" +:+ number_to_string id
  | MeProfile => "/me/profile"
  | MeSubscription => "/me/subscription"
  end.

Definition params_of (c : call) : option PaginationParams :=
  match c with
  | StrategiesList params | StrategiesWatchlist params | WalletsList params => params
  | Health | StrategiesGet _ | WalletsGet _ | MeProfile | MeSubscription => None
  end.

(** The pagination that was given: a missing parameter object gives what
    an object without fields gives. *)
Definition given (params : option PaginationParams) : option number * option number :=
  match params with
  | None => (None, None)
  | Some params => (page params, pageSize params)
  end.

(** What [buildUrl] puts after the path. *)
Definition query_of (params : option PaginationParams) : string :=
  match given params with
  | (None, None) => ""
  | (Some p, None) => "?page=" +:+ number_to_string p
  | (None, Some s) => "?pageSize=" +:+ number_to_string s
  | (Some p, Some s) =>
      "?page=" +:+ number_to_string p +:+ "&pageSize=" +:+ number_to_string s
  end.

(** The characters of a printed number: digits, the minus sign and the
    letters of NaN. *)
Definition number_char (c : ascii) : bool :=
  match c with
  | "0" | "1" | "2" | "3" | "4" | "5" | "6" | "7" | "8" | "9" | "-" | "N" | "a" => true
  | _ => false
  end%char.

Fixpoint string_forall (P : ascii -> bool) (s : string) : bool :=
  match s with
  | EmptyString => true
  | String c s' => P c && string_forall P s'
  end.

(** A safe integer: [Number.isSafeInteger]. *)
Definition safe (z : Z) : Prop := - (2 ^ 53 - 1) ≤ z ≤ 2 ^ 53 - 1.

(** What a parsed body reports under [error]: the property [name] of the
    object that the body, an object, has for [error]; [None] when the
    body is not an object, has no [error], has an [error] that is not an
    object, or the error object has no such property. *)
Definition reported (body : value) (name : string) : option value :=
  match body with
  | VObj m =>
      match m !! "error" with
      | Some (VObj e) => e !! name
      | _ => None
      end
  | _ => None
  end.

(** The value is there: a property that holds null counts as missing. *)
Definition there (o : option value) : option value :=
  match o with
  | Some VNull | Some VUndefined | None => None
  | Some v => Some v
  end.

(** The message that a body reports, when it reports one, converts to a
    string. *)
Definition message_converts (body : value) : bool :=
  match there (reported body "message") with
  | Some v => bool_decide (is_Some (ToString v))
  | None => true
  end.

(** Bodies whose message does not convert: its [toString] is hidden. *)
Definition hidden_toString_body : value :=
  VObj {["error" := VObj {["message" := VObj {["toString" := VNull]}]}]}.

(** A body that reports null for every field of the error object. *)
Definition null_fields_body : value :=
  VObj {["error" := VObj (<["code" := VNull]> (<["message" := VNull]>
                          {["retryAfter" := VNull]}))]}.

(** A client that has seen a complete set of rate-limit headers. *)
Definition informed_client : RamarisClient :=
  {| apiKey := "rms_test_key";
     baseUrl := DEFAULT_BASE_URL;
     rateLimit := Some {| limit := Int 100; remaining := Int 99; reset := Int 1707667200 |} |}.

(** A response without rate-limit headers. *)
Definition bare_response (status : Z) (body : value) : Response :=
  {| Fetch.status := status; headers := json_headers; json := Some body |}.

(** * Properties *)

(** ** The platform functions on examples *)

Example parseInt_1000 : parseInt "1000" = Int 1000.
Proof. reflexivity. Qed.

Example parseInt_px : parseInt "  -12px" = Int (-12).
Proof. reflexivity. Qed.

Example parseInt_empty : parseInt "" = NaN.
Proof. reflexivity. Qed.

Example includes_json :
  includes "application/json; charset=utf-8" "application/json" = true.
Proof. reflexivity. Qed.

Example strip_twice : strip_trailing_slashes "https://x/v1//" = "https://x/v1"%string.
Proof. reflexivity. Qed.

Example strip_inner : strip_trailing_slashes "a//b/" = "a//b"%string.
Proof. reflexivity. Qed.

Example ToString_array :
  ToString (VArr [VNum (Int 1); VNull; VArr [VStr "a"; VBool true]])
  = Some "1,,a,true"%string.
Proof. reflexivity. Qed.

Example ToString_object : ToString (VObj {["valueOf" := VNull]}) = Some "[object Object]"%string.
Proof. vm_compute. reflexivity. Qed.

Example ToString_hidden : ToString (VArr [VStr "a"; VObj {["toString" := VNull]}]) = None.
Proof. vm_compute. reflexivity. Qed.

Example urlencode_reserved : urlencode "a b&c/~" = "a+b%26c%2F%7E"%string.
Proof. reflexivity. Qed.

(** ** The test-suite, replayed *)

Example test_default_url :
  calls (strategies_list (always (mockResponse (VObj ∅) 200)) test_client None)
  = [("https://www.ramaris.app/api/v1/strategies"%string,
      {| init_method := "GET";
         init_headers := [("Authorization", "Bearer rms_test_key");
                          ("Accept", "application/json")]%string |})].
Proof. reflexivity. Qed.

Example test_pagination_url :
  buildUrl test_client "/wallets"
    (Some {| page := Some (Int 2); pageSize := Some (Int 10) |})
  = "https://www.ramaris.app/api/v1/wallets?page=2&pageSize=10"%string.
Proof. reflexivity. Qed.

Example test_tracks_rate_limit :
  rateLimit (client (strategies_list (always (mockResponse (VObj ∅) 200)) test_client None))
  = Some {| limit := Int 1000; remaining := Int 999; reset := Int 1700000000 |}.
Proof. vm_compute. reflexivity. Qed.

Example test_404 :
  result (strategies_get
            (always (mockErrorResponse 404 "NOT_FOUND" "Strategy not found" None json_headers))
            test_client "nonexistent")
  = Throw (ThrowRamarisError
             {| errors.name := "RamarisError"; errors.message := "Strategy not found";
                errors.code := VStr "NOT_FOUND"; errors.status := 404 |}).
Proof. vm_compute. reflexivity. Qed.

Example test_non_json_502 :
  result (strategies_list (always (plain_text_response 502)) test_client None)
  = Throw (ThrowRamarisError
             {| errors.name := "RamarisError"; errors.message := "HTTP 502";
                errors.code := VStr "UNKNOWN_ERROR"; errors.status := 502 |}).
Proof. vm_compute. reflexivity. Qed.

Example test_network_error :
  result (strategies_list (failing (ThrownError "Failed to fetch")) test_client None)
  = Throw (ThrowRamarisError
             {| errors.name := "RamarisError"; errors.message := "Failed to fetch";
                errors.code := VStr "NETWORK_ERROR"; errors.status := 0 |}).
Proof. reflexivity. Qed.

Example test_429 :
  result (strategies_list (always rate_limited_response) test_client None)
  = Throw (ThrowRateLimitError
             {| errors.super :=
                  {| errors.name := "RateLimitError"; errors.message := "Rate limit exceeded";
                     errors.code := VStr "RATE_LIMITED"; errors.status := 429 |};
                errors.retryAfter := VNum (Int 1800) |}).
Proof. vm_compute. reflexivity. Qed.

(** ** Strings *)

Lemma append_cons (a : ascii) (s t : string) : String a s +:+ t = String a (s +:+ t).
Proof. reflexivity. Qed.

Lemma append_nil_l (t : string) : "" +:+ t = t.
Proof. reflexivity. Qed.

Lemma append_nil_r (s : string) : s +:+ "" = s.
Proof. induction s as [|a s IH]; [reflexivity|]. by rewrite append_cons, IH. Qed.

Lemma append_assoc (s t u : string) : (s +:+ t) +:+ u = s +:+ (t +:+ u).
Proof. induction s as [|a s IH]; [reflexivity|]. by rewrite !append_cons, IH. Qed.

Lemma prefix_spec (t s : string) :
  String.prefix t s = true ↔ ∃ b, s = t +:+ b.
Proof.
  revert s. induction t as [|a t IH]; intros s.
  - destruct s; simpl; split; eauto.
  - destruct s as [|c s]; simpl.
    + split; [discriminate|]. intros [b Hb]. discriminate Hb.
    + destruct (ascii_dec a c) as [->|Hne].
      * rewrite IH. split; intros [b Hb]; exists b.
        -- by rewrite append_cons, <- Hb.
        -- rewrite append_cons in Hb. congruence.
      * split; [discriminate|]. intros [b Hb].
        rewrite append_cons in Hb. congruence.
Qed.

(** [includes] is the substring test. *)
Lemma includes_spec (s t : string) :
  includes s t = true ↔ ∃ a b, s = a +:+ t +:+ b.
Proof.
  induction s as [|c s IH].
  - cbn [includes]. rewrite orb_false_r, prefix_spec. split.
    + intros [b Hb]. by exists ""%string, b.
    + intros [a [b Hab]]. destruct a as [|x a]; [by exists b|discriminate Hab].
  - cbn [includes]. rewrite orb_true_iff, prefix_spec, IH. split.
    + intros [[b Hb]|[a [b Hab]]].
      * by exists ""%string, b.
      * exists (String c a), b. by rewrite append_cons, <- Hab.
    + intros [a [b Hab]]. destruct a as [|x a].
      * left. by exists b.
      * right. exists a, b. rewrite append_cons in Hab. congruence.
Qed.

Lemma strip_trailing_slashes_end (s : string) :
  ends_with_slash (strip_trailing_slashes s) = false.
Proof.
  induction s as [|c s IH]; [reflexivity|].
  cbn [strip_trailing_slashes].
  destruct (strip_trailing_slashes s) as [|d r] eqn:E.
  - destruct (Ascii.eqb c "/") eqn:Hc; [reflexivity|]. simpl. exact Hc.
  - exact IH.
Qed.

Lemma strip_trailing_slashes_split (s : string) :
  ∃ n, s = strip_trailing_slashes s +:+ slashes n.
Proof.
  induction s as [|c s [n IH]]; [by exists O|].
  cbn [strip_trailing_slashes].
  destruct (strip_trailing_slashes s) as [|d r] eqn:E.
  - destruct (Ascii.eqb_spec c "/") as [->|Hc].
    + exists (S n). rewrite append_nil_l in *. by rewrite IH at 1.
    + exists n. rewrite append_cons. by rewrite IH at 1.
  - exists n. rewrite append_cons. by rewrite IH at 1.
Qed.

(** Removing slashes from the end of a string that does not end with one
    removes nothing: the stripped base is the only one. *)
Lemma strip_trailing_slashes_unique (s : string) (n : nat) :
  ends_with_slash s = false → strip_trailing_slashes (s +:+ slashes n) = s.
Proof.
  induction s as [|c s IH]; intros H.
  - rewrite append_nil_l. induction n as [|n IHn]; [reflexivity|].
    cbn [slashes strip_trailing_slashes]. by rewrite IHn.
  - rewrite append_cons. cbn [strip_trailing_slashes].
    destruct s as [|d s].
    + rewrite append_nil_l.
      assert (strip_trailing_slashes (slashes n) = ""%string) as ->.
      { clear. induction n as [|n IHn]; [reflexivity|].
        cbn [slashes strip_trailing_slashes]. by rewrite IHn. }
      simpl in H. by rewrite H.
    + rewrite IH by exact H. reflexivity.
Qed.

(** ** Printing numbers *)

Lemma urlencode_uint (d : Decimal.uint) :
  urlencode (NilEmpty.string_of_uint d) = NilEmpty.string_of_uint d.
Proof. induction d; [reflexivity|..]; cbn [NilEmpty.string_of_uint urlencode]; by rewrite IHd. Qed.

Lemma urlencode_number (n : number) :
  urlencode (number_to_string n) = number_to_string n.
Proof.
  destruct n as [|z]; [reflexivity|].
  unfold number_to_string, NilZero.string_of_int, NilZero.string_of_uint.
  destruct (Z.to_int z) as [d|d]; destruct d;
    try reflexivity;
    cbn [NilEmpty.string_of_uint urlencode]; by rewrite ?urlencode_uint.
Qed.

(** ** Error normalisation *)

Lemma ok_spec (response : Response) :
  ok response = true ↔ 200 ≤ Fetch.status response ≤ 299.
Proof. unfold ok. rewrite andb_true_iff, !Z.leb_le. tauto. Qed.

Lemma ok_false (response : Response) :
  ¬ (200 ≤ Fetch.status response ≤ 299) → ok response = false.
Proof. rewrite <- ok_spec. by destruct (ok response). Qed.

Lemma errorBody_absent (response : Response) :
  (∀ ct, headers response !! "content-type" = Some ct →
         includes ct "application/json" = false) ∨ json response = None →
  errorBody response = VNull.
Proof.
  unfold errorBody, await_json. intros [H|H].
  - destruct (headers response !! "content-type") as [ct|]; [|reflexivity].
    by rewrite (H ct eq_refl).
  - rewrite H. destruct (headers response !! "content-type") as [ct|]; [|reflexivity].
    by destruct (includes ct "application/json").
Qed.

Lemma errorBody_present (response : Response) :
  errorBody response ≠ VNull →
  ∃ ct, headers response !! "content-type" = Some ct ∧
        includes ct "application/json" = true ∧
        json response = Some (errorBody response).
Proof.
  unfold errorBody, await_json.
  destruct (headers response !! "content-type") as [ct|]; [|done].
  destruct (includes ct "application/json") eqn:Hct; [|done].
  destruct (json response) as [v|]; [|done].
  intros _. by exists ct.
Qed.

(** The source's chain of optional reads is a lookup in the error
    object the body reports. *)
Lemma get_opt_reported (body : value) (p : prop) :
  get_opt (get_opt body p_error) p = default VUndefined (reported body (prop_name p)).
Proof.
  destruct body as [| | | | | |m]; try reflexivity.
  cbn [get_opt reported prop_name].
  destruct (m !! "error") as [[| | | | | |e]|]; reflexivity.
Qed.

Lemma coalesce_reported (body : value) (p : prop) (d : value) :
  coalesce (get_opt (get_opt body p_error) p) d
  = default d (there (reported body (prop_name p))).
Proof.
  rewrite get_opt_reported. unfold coalesce.
  by destruct (reported body (prop_name p)) as [[| | | | | |]|].
Qed.

Lemma errorBody_read (response : Response) (ct a b : string) (body : value) :
  headers response !! "content-type" = Some ct →
  ct = a +:+ "application/json" +:+ b →
  json response = Some body →
  errorBody response = body.
Proof.
  intros Hh Hct Hj. unfold errorBody, await_json. rewrite Hh, Hj.
  assert (includes ct "application/json" = true) as ->; [|done].
  apply includes_spec. by exists a, b.
Qed.

Lemma throw_new_RamarisError {A : Type} (message code : value) (status : Z) :
  @throw_new A _ ThrowRamarisError (errors.new_RamarisError message code status)
  = match ToString message with
    | Some msg =>
        Throw (ThrowRamarisError
                 {| errors.name := "RamarisError"; errors.message := msg;
                    errors.code := code; errors.status := status |})
    | None => Throw TypeError
    end.
Proof. unfold errors.new_RamarisError. by destruct (ToString message). Qed.

Lemma throw_new_RateLimitError {A : Type} (message retryAfter : value) :
  @throw_new A _ ThrowRateLimitError (errors.new_RateLimitError message retryAfter)
  = match ToString message with
    | Some msg =>
        Throw (ThrowRateLimitError
                 {| errors.super :=
                      {| errors.name := "RateLimitError"; errors.message := msg;
                         errors.code := VStr "RATE_LIMITED"; errors.status := 429 |};
                    errors.retryAfter := retryAfter |})
    | None => Throw TypeError
    end.
Proof.
  unfold errors.new_RateLimitError, errors.new_RamarisError.
  by destruct (ToString message).
Qed.

(** [handleErrorResponse], by what the body it read reports. *)
Lemma handleErrorResponse_reported (response : Response) (body : value) :
  errorBody response = body →
  handleErrorResponse response =
    match ToString (default (VStr ("HTTP " +:+ number_to_string (Int (Fetch.status response))))
                      (there (reported body "message"))) with
    | Some msg =>
        if Fetch.status response =? 429 then
          Throw (ThrowRateLimitError
                   {| errors.super :=
                        {| errors.name := "RateLimitError"; errors.message := msg;
                           errors.code := VStr "RATE_LIMITED"; errors.status := 429 |};
                      errors.retryAfter :=
                        default (VNum (Int 0)) (there (reported body "retryAfter")) |})
        else
          Throw (ThrowRamarisError
                   {| errors.name := "RamarisError"; errors.message := msg;
                      errors.code :=
                        default (VStr "UNKNOWN_ERROR") (there (reported body "code"));
                      errors.status := Fetch.status response |})
    | None => Throw TypeError
    end.
Proof.
  intros Hb. unfold handleErrorResponse. rewrite Hb, !coalesce_reported.
  cbn [prop_name].
  rewrite throw_new_RamarisError, throw_new_RateLimitError.
  by destruct (ToString _), (Fetch.status response =? 429).
Qed.

(** The message converts when the body reports none, and when the one it
    reports converts. *)
Lemma message_converts_spec (body : value) (d : string) :
  (message_converts body = true →
   ∃ msg, ToString (default (VStr d) (there (reported body "message"))) = Some msg) ∧
  (message_converts body = false →
   ToString (default (VStr d) (there (reported body "message"))) = None).
Proof.
  unfold message_converts.
  destruct (there (reported body "message")) as [v|]; cbn [default from_option].
  - split.
    + intros H. apply bool_decide_eq_true in H. destruct H as [msg H]. by exists msg.
    + intros H. apply bool_decide_eq_false in H.
      destruct (ToString v) as [msg|] eqn:E; [|done]. destruct H. by exists msg.
  - split; [by exists d|done].
Qed.

(** No path through [handleErrorResponse] returns. *)
Lemma handleErrorResponse_never_returns (response : Response) :
  ∃ e, handleErrorResponse response = Throw e.
Proof.
  rewrite (handleErrorResponse_reported response _ eq_refl).
  destruct (ToString _), (Fetch.status response =? 429); by eexists.
Qed.

(** What is thrown when no body was read. *)
Lemma handleErrorResponse_default (response : Response) :
  errorBody response = VNull →
  handleErrorResponse response =
    if Fetch.status response =? 429 then
      Throw (ThrowRateLimitError
               {| errors.super :=
                    {| errors.name := "RateLimitError"; errors.message := "HTTP 429";
                       errors.code := VStr "RATE_LIMITED"; errors.status := 429 |};
                  errors.retryAfter := VNum (Int 0) |})
    else
      Throw (ThrowRamarisError
               {| errors.name := "RamarisError";
                  errors.message := "HTTP " +:+ number_to_string (Int (Fetch.status response));
                  errors.code := VStr "UNKNOWN_ERROR";
                  errors.status := Fetch.status response |}).
Proof.
  intros H. rewrite (handleErrorResponse_reported response _ H).
  cbn [reported there default from_option ToString].
  destruct (Fetch.status response =? 429) eqn:E; [|reflexivity].
  apply Z.eqb_eq in E. by rewrite E.
Qed.

Section Requests.

Variable fetch : fetch_fn.

Lemma request_resolved this path params response :
  fetch (buildUrl this path params) (requestInit this) = Resolved response →
  request fetch this path params =
    {| calls := [(buildUrl this path params, requestInit this)];
       client := updateRateLimit this (headers response);
       result :=
         (if negb (ok response) then handleErrorResponse response else Return ()) ;;
         await_json response |}.
Proof. intros H. unfold request. by rewrite H. Qed.

Lemma request_rejected this path params err :
  fetch (buildUrl this path params) (requestInit this) = Rejected err →
  request fetch this path params =
    {| calls := [(buildUrl this path params, requestInit this)];
       client := this;
       result :=
         Throw (ThrowRamarisError
                  {| errors.name := "RamarisError";
                     errors.message := match err with
                                       | ThrownError msg => msg
                                       | ThrownOther _ => "Network error"
                                       end;
                     errors.code := VStr "NETWORK_ERROR";
                     errors.status := 0 |}) |}.
Proof.
  intros H. unfold request. rewrite H, throw_new_RamarisError. by destruct err.
Qed.

(** A response outside the 2xx range completes the request with what
    [handleErrorResponse] throws. *)
Lemma request_not_ok this path params response :
  fetch (buildUrl this path params) (requestInit this) = Resolved response →
  ok response = false →
  ∃ e, handleErrorResponse response = Throw e ∧
       result (request fetch this path params) = Throw e.
Proof.
  intros H Hok. rewrite (request_resolved _ _ _ _ H). cbn [result]. rewrite Hok.
  destruct (handleErrorResponse_never_returns response) as [e He].
  exists e. by rewrite He.
Qed.

Lemma request_ok this path params response :
  fetch (buildUrl this path params) (requestInit this) = Resolved response →
  ok response = true →
  result (request fetch this path params) = await_json response.
Proof.
  intros H Hok. rewrite (request_resolved _ _ _ _ H). cbn [result]. by rewrite Hok.
Qed.

(** C1 (amended). A response with status 429 makes the call throw the
    rate-limit error whenever the message converts to a string, as it
    does when the body reports no message or a string: its code is
    'RATE_LIMITED' and its status 429 whatever code the body reports,
    its retryAfter is what the body reports as error.retryAfter when
    that is there and not null, and 0 when it is not or no body was
    read, and its message is the extracted message, the body's
    error.message converted to a string, else 'HTTP 429'.  When the
    message reported does not convert, the call throws the TypeError of
    the conversion. *)
Theorem rate_limit_error_on_429 this path params response :
  fetch (buildUrl this path params) (requestInit this) = Resolved response →
  Fetch.status response = 429 →
  ((∀ ct, headers response !! "content-type" = Some ct →
          includes ct "application/json" = false) ∨ json response = None →
   result (request fetch this path params) =
     Throw (ThrowRateLimitError
              {| errors.super :=
                   {| errors.name := "RateLimitError"; errors.message := "HTTP 429";
                      errors.code := VStr "RATE_LIMITED"; errors.status := 429 |};
                 errors.retryAfter := VNum (Int 0) |})) ∧
  (∀ ct a b body,
      headers response !! "content-type" = Some ct →
      ct = a +:+ "application/json" +:+ b →
      json response = Some body →
      (∀ msg,
          ToString (default (VStr "HTTP 429") (there (reported body "message"))) = Some msg →
          result (request fetch this path params) =
            Throw (ThrowRateLimitError
                     {| errors.super :=
                          {| errors.name := "RateLimitError"; errors.message := msg;
                             errors.code := VStr "RATE_LIMITED"; errors.status := 429 |};
                        errors.retryAfter :=
                          default (VNum (Int 0)) (there (reported body "retryAfter")) |})) ∧
      (ToString (default (VStr "HTTP 429") (there (reported body "message"))) = None →
       result (request fetch this path params) = Throw TypeError)).
Proof.
  intros H H429.
  assert (ok response = false) as Hok by (unfold ok; rewrite H429; reflexivity).
  rewrite (request_resolved _ _ _ _ H). cbn [result]. rewrite Hok. cbn [negb].
  split.
  - intros Hbody. rewrite (handleErrorResponse_default _ (errorBody_absent _ Hbody)).
    by rewrite H429.
  - intros ct a b body Hh Hct Hj.
    rewrite (handleErrorResponse_reported _ _ (errorBody_read _ _ _ _ _ Hh Hct Hj)).
    rewrite H429. change (number_to_string (Int 429)) with "429"%string.
    change ("HTTP " +:+ "429") with "HTTP 429"%string.
    split; [intros msg ->|intros ->]; reflexivity.
Qed.

(** C2 (amended). After a response of any status, the snapshot holds the
    values parsed from x-ratelimit-limit, x-ratelimit-remaining and
    x-ratelimit-reset when all three headers are there with a non-empty
    value; when one of them is missing or empty the client is left as it
    was, the snapshot included. *)
Theorem rate_limit_snapshot this path params response :
  fetch (buildUrl this path params) (requestInit this) = Resolved response →
  (∀ l r s,
      headers response !! "x-ratelimit-limit" = Some l →
      headers response !! "x-ratelimit-remaining" = Some r →
      headers response !! "x-ratelimit-reset" = Some s →
      l ≠ ""%string → r ≠ ""%string → s ≠ ""%string →
      rateLimit (client (request fetch this path params))
      = Some {| limit := parseInt l; remaining := parseInt r; reset := parseInt s |}) ∧
  (∀ k, k ∈ ["x-ratelimit-limit"; "x-ratelimit-remaining"; "x-ratelimit-reset"]%string →
      headers response !! k = None ∨ headers response !! k = Some ""%string →
      client (request fetch this path params) = this ∧
      rateLimit (client (request fetch this path params)) = rateLimit this).
Proof.
  intros H. rewrite (request_resolved _ _ _ _ H). cbn [client]. split.
  - intros l r s Hl Hr Hs Nl Nr Ns. unfold updateRateLimit. rewrite Hl, Hr, Hs.
    apply String.eqb_neq in Nl, Nr, Ns. cbn [truthy]. by rewrite Nl, Nr, Ns.
  - intros k Hk Hmiss.
    assert (updateRateLimit this (headers response) = this) as ->; [|done].
    unfold updateRateLimit.
    destruct (headers response !! "x-ratelimit-limit") as [l|] eqn:Hl; [|done].
    destruct (headers response !! "x-ratelimit-remaining") as [r|] eqn:Hr; [|done].
    destruct (headers response !! "x-ratelimit-reset") as [s|] eqn:Hs; [|done].
    rewrite !elem_of_cons, elem_of_nil in Hk.
    destruct Hk as [->|[->|[->|[]]]]; destruct Hmiss as [Hm|Hm];
      rewrite Hm in *; simplify_eq; cbn [truthy String.eqb negb andb];
      by rewrite ?andb_false_r.
Qed.

(** C3 (amended). A response whose status is outside [200,299] never
    makes the call return: the call throws, and what it throws is one
    error of the client's hierarchy whenever the message converts to a
    string, as it does when no body was read, when the body reports no
    message and when it reports a string; when the message reported
    does not convert, it is the TypeError of the conversion.  The call
    returns a value exactly when there is a response, its status is in
    [200,299] and its body parses as JSON, and the value is the parsed
    body; when there is no response the call throws the network
    error. *)
Theorem request_completion this path params :
  (∀ response,
      fetch (buildUrl this path params) (requestInit this) = Resolved response →
      ¬ (200 ≤ Fetch.status response ≤ 299) →
      (∃ e, result (request fetch this path params) = Throw e) ∧
      ((∀ ct, headers response !! "content-type" = Some ct →
              includes ct "application/json" = false) ∨ json response = None →
       ∃ e, result (request fetch this path params) = Throw e ∧ is_typed_error e = true) ∧
      (∀ ct a b body,
          headers response !! "content-type" = Some ct →
          ct = a +:+ "application/json" +:+ b →
          json response = Some body →
          (message_converts body = true →
           ∃ e, result (request fetch this path params) = Throw e ∧
                is_typed_error e = true) ∧
          (message_converts body = false →
           result (request fetch this path params) = Throw TypeError))) ∧
  (∀ v,
      result (request fetch this path params) = Return v ↔
      ∃ response,
        fetch (buildUrl this path params) (requestInit this) = Resolved response ∧
        200 ≤ Fetch.status response ≤ 299 ∧
        json response = Some v) ∧
  (∀ err,
      fetch (buildUrl this path params) (requestInit this) = Rejected err →
      ∃ e, result (request fetch this path params) = Throw (ThrowRamarisError e) ∧
           errors.code e = VStr "NETWORK_ERROR").
Proof.
  split; [|split].
  - intros response H Hst.
    pose proof (ok_false _ Hst) as Hok.
    split; [|split].
    + destruct (request_not_ok _ _ _ _ H Hok) as [e [_ He]]. eauto.
    + intros Hbody. rewrite (request_resolved _ _ _ _ H). cbn [result].
      rewrite Hok. cbn [negb].
      rewrite (handleErrorResponse_default _ (errorBody_absent _ Hbody)).
      destruct (Fetch.status response =? 429); eexists; split; reflexivity.
    + intros ct a b body Hh Hct Hj.
      rewrite (request_resolved _ _ _ _ H). cbn [result]. rewrite Hok. cbn [negb].
      rewrite (handleErrorResponse_reported _ _ (errorBody_read _ _ _ _ _ Hh Hct Hj)).
      destruct (message_converts_spec body
                  ("HTTP " +:+ number_to_string (Int (Fetch.status response)))) as [Hy Hn].
      split.
      * intros Hc. destruct (Hy Hc) as [msg ->].
        destruct (Fetch.status response =? 429); eexists; split; reflexivity.
      * intros Hc. by rewrite (Hn Hc).
  - intros v. split.
    + destruct (fetch (buildUrl this path params) (requestInit this)) as [response|err] eqn:H.
      * destruct (ok response) eqn:Hok.
        -- rewrite (request_ok _ _ _ _ H Hok). unfold await_json.
           destruct (json response) as [w|] eqn:Hj; [|discriminate].
           intros [= ->]. exists response. by rewrite <- ok_spec.
        -- destruct (request_not_ok _ _ _ _ H Hok) as [e [_ He]].
           rewrite He. discriminate.
      * rewrite (request_rejected _ _ _ _ H). discriminate.
    + intros [response [H [Hst Hj]]]. apply ok_spec in Hst.
      rewrite (request_ok _ _ _ _ H Hst). unfold await_json. by rewrite Hj.
  - intros err H. rewrite (request_rejected _ _ _ _ H). eexists. split; reflexivity.
Qed.

End Requests.

Section Completions.

Variable fetch : fetch_fn.

(** C4 (amended). A response outside [200,299] whose body is not JSON
    (the content type does not include application/json, or the body does
    not parse) makes the call throw, when the status is not 429, the base
    error with code 'UNKNOWN_ERROR', message 'HTTP ' followed by the
    status, and the status of the response; when the status is 429, the
    rate-limit error with code 'RATE_LIMITED', message 'HTTP 429' and
    retryAfter 0.  The failed parse is never what the call throws. *)
Theorem non_json_error_body this path params response :
  fetch (buildUrl this path params) (requestInit this) = Resolved response →
  ¬ (200 ≤ Fetch.status response ≤ 299) →
  (∀ ct, headers response !! "content-type" = Some ct →
         includes ct "application/json" = false) ∨ json response = None →
  result (request fetch this path params) =
    (if Fetch.status response =? 429 then
       Throw (ThrowRateLimitError
                {| errors.super :=
                     {| errors.name := "RateLimitError"; errors.message := "HTTP 429";
                        errors.code := VStr "RATE_LIMITED"; errors.status := 429 |};
                   errors.retryAfter := VNum (Int 0) |})
     else
       Throw (ThrowRamarisError
                {| errors.name := "RamarisError";
                   errors.message := "HTTP " +:+ number_to_string (Int (Fetch.status response));
                   errors.code := VStr "UNKNOWN_ERROR";
                   errors.status := Fetch.status response |})) ∧
  result (request fetch this path params) ≠ Throw SyntaxError.
Proof.
  intros H Hst Hbody.
  rewrite (request_resolved fetch _ _ _ _ H). cbn [result].
  rewrite (ok_false _ Hst). cbn [negb].
  rewrite (handleErrorResponse_default _ (errorBody_absent _ Hbody)).
  by destruct (Fetch.status response =? 429).
Qed.

(** C5. When [fetch] itself fails and there is no response, the call
    throws the base error with code 'NETWORK_ERROR' and status 0, whose
    message is the message of what was thrown when that is an Error and
    'Network error' otherwise. *)
Theorem fetch_failure_is_network_error this path params err :
  fetch (buildUrl this path params) (requestInit this) = Rejected err →
  ∃ e : errors.RamarisError,
    result (request fetch this path params) = Throw (ThrowRamarisError e) ∧
    errors.code e = VStr "NETWORK_ERROR" ∧
    errors.status e = 0 ∧
    errors.message e = match err with
                       | ThrownError msg => msg
                       | ThrownOther _ => "Network error"%string
                       end.
Proof.
  intros H. rewrite (request_rejected fetch _ _ _ _ H). cbn [result].
  eexists. split; [reflexivity|]. by repeat split.
Qed.

(** C9. When [fetch] itself fails the client is left exactly as it was,
    the rate-limit snapshot included; a call after which the snapshot
    differs obtained a response. *)
Theorem network_error_keeps_snapshot this path params :
  (∀ err,
      fetch (buildUrl this path params) (requestInit this) = Rejected err →
      client (request fetch this path params) = this ∧
      rateLimit (client (request fetch this path params)) = rateLimit this) ∧
  (rateLimit (client (request fetch this path params)) ≠ rateLimit this →
   ∃ response, fetch (buildUrl this path params) (requestInit this) = Resolved response).
Proof.
  split.
  - intros err H. by rewrite (request_rejected fetch _ _ _ _ H).
  - intros Hne.
    destruct (fetch (buildUrl this path params) (requestInit this)) as [response|err] eqn:H.
    + by exists response.
    + rewrite (request_rejected fetch _ _ _ _ H) in Hne. done.
Qed.

(** C7. On a 2xx response whose body is an object with [data] equal to X,
    a single-item call returns X and nothing else of the envelope; on a
    2xx response with any body, in particular data and pagination, a
    paginated call returns the whole body as it was parsed. *)
Theorem envelopes this path response :
  (∀ m X,
      fetch (buildUrl this path None) (requestInit this) = Resolved response →
      200 ≤ Fetch.status response ≤ 299 →
      json response = Some (VObj m) →
      m !! "data" = Some X →
      result (getSingle fetch this path) = Return X) ∧
  (∀ params envelope,
      fetch (buildUrl this path params) (requestInit this) = Resolved response →
      200 ≤ Fetch.status response ≤ 299 →
      json response = Some envelope →
      result (getPaginated fetch this path params) = Return envelope).
Proof.
  split.
  - intros m X H Hst Hj Hd. apply ok_spec in Hst.
    unfold getSingle. cbn [result]. rewrite (request_ok fetch _ _ _ _ H Hst).
    unfold await_json. rewrite Hj. cbn. by rewrite Hd.
  - intros params envelope H Hst Hj. apply ok_spec in Hst.
    unfold getPaginated. rewrite (request_ok fetch _ _ _ _ H Hst).
    unfold await_json. by rewrite Hj.
Qed.

End Completions.

(** C10. The body of an error response is read as JSON only under a
    content-type header that contains the substring 'application/json'.
    Under any other content type, or none, the body is ignored even if it
    is valid JSON: no field of it is read, and the error thrown is the
    one built from the defaults, code 'UNKNOWN_ERROR' and message 'HTTP '
    followed by the status in the base error, message 'HTTP 429' and
    retryAfter 0 in the rate-limit error of a 429. *)
Theorem body_ignored_without_json_content_type (response : Response) :
  (∀ ct, headers response !! "content-type" = Some ct →
         ¬ ∃ a b, ct = a +:+ "application/json" +:+ b) →
  errorBody response = VNull ∧
  (∀ p, error_field response p = VUndefined) ∧
  handleErrorResponse response =
    (if Fetch.status response =? 429 then
       Throw (ThrowRateLimitError
                {| errors.super :=
                     {| errors.name := "RateLimitError"; errors.message := "HTTP 429";
                        errors.code := VStr "RATE_LIMITED"; errors.status := 429 |};
                   errors.retryAfter := VNum (Int 0) |})
     else
       Throw (ThrowRamarisError
                {| errors.name := "RamarisError";
                   errors.message := "HTTP " +:+ number_to_string (Int (Fetch.status response));
                   errors.code := VStr "UNKNOWN_ERROR";
                   errors.status := Fetch.status response |})).
Proof.
  intros Hct.
  assert (errorBody response = VNull) as Hb.
  { apply errorBody_absent. left. intros ct Hh.
    destruct (includes ct "application/json") eqn:E; [|reflexivity].
    apply includes_spec in E. destruct (Hct ct Hh E). }
  split; [exact Hb|]. split.
  - intros p. unfold error_field. by rewrite Hb.
  - by apply handleErrorResponse_default.
Qed.

(** The converse: when a body was read, the content type contains the
    substring. *)
Lemma body_read_under_json_content_type (response : Response) :
  errorBody response ≠ VNull →
  ∃ ct a b, headers response !! "content-type" = Some ct ∧
            ct = a +:+ "application/json" +:+ b.
Proof.
  intros H. destruct (errorBody_present _ H) as [ct [Hh [Hi _]]].
  apply includes_spec in Hi. destruct Hi as [a [b Hab]]. by exists ct, a, b.
Qed.

(** ** URLs *)

Lemma toString_one (n v : string) :
  URLSearchParams.toString [(n, v)] = urlencode n +:+ "=" +:+ urlencode v.
Proof. reflexivity. Qed.

Lemma toString_two (n1 v1 n2 v2 : string) :
  URLSearchParams.toString [(n1, v1); (n2, v2)]
  = (urlencode n1 +:+ "=" +:+ urlencode v1) +:+ "&" +:+ urlencode n2 +:+ "=" +:+ urlencode v2.
Proof. reflexivity. Qed.

Lemma buildUrl_page this path p :
  buildUrl this path (Some {| page := Some p; pageSize := None |})
  = baseUrl this +:+ path +:+ "?page=" +:+ number_to_string p.
Proof.
  unfold buildUrl. cbn [page pageSize URLSearchParams.new URLSearchParams.set].
  rewrite toString_one, urlencode_number, append_assoc. reflexivity.
Qed.

Lemma buildUrl_pageSize this path s :
  buildUrl this path (Some {| page := None; pageSize := Some s |})
  = baseUrl this +:+ path +:+ "?pageSize=" +:+ number_to_string s.
Proof.
  unfold buildUrl. cbn [page pageSize URLSearchParams.new URLSearchParams.set].
  rewrite toString_one, urlencode_number, append_assoc. reflexivity.
Qed.

Lemma buildUrl_both this path p s :
  buildUrl this path (Some {| page := Some p; pageSize := Some s |})
  = baseUrl this +:+ path +:+ "?page=" +:+ number_to_string p
      +:+ "&pageSize=" +:+ number_to_string s.
Proof.
  unfold buildUrl. cbn [page pageSize].
  change (URLSearchParams.set "pageSize" (number_to_string s)
            (URLSearchParams.set "page" (number_to_string p) URLSearchParams.new))
    with [("page"%string, number_to_string p); ("pageSize"%string, number_to_string s)].
  rewrite toString_two, !urlencode_number.
  change (urlencode "page") with "page"%string.
  change (urlencode "pageSize") with "pageSize"%string.
  rewrite !append_assoc. reflexivity.
Qed.

Lemma buildUrl_page_encoded this path p :
  buildUrl this path (Some {| page := Some p; pageSize := None |})
  = baseUrl this +:+ path +:+ "?page=" +:+ urlencode (number_to_string p).
Proof.
  unfold buildUrl. cbn [page pageSize URLSearchParams.new URLSearchParams.set].
  rewrite toString_one, append_assoc. reflexivity.
Qed.

Lemma buildUrl_pageSize_encoded this path s :
  buildUrl this path (Some {| page := None; pageSize := Some s |})
  = baseUrl this +:+ path +:+ "?pageSize=" +:+ urlencode (number_to_string s).
Proof.
  unfold buildUrl. cbn [page pageSize URLSearchParams.new URLSearchParams.set].
  rewrite toString_one, append_assoc. reflexivity.
Qed.

Lemma buildUrl_both_encoded this path p s :
  buildUrl this path (Some {| page := Some p; pageSize := Some s |})
  = baseUrl this +:+ path +:+ "?page=" +:+ urlencode (number_to_string p)
      +:+ "&pageSize=" +:+ urlencode (number_to_string s).
Proof.
  unfold buildUrl. cbn [page pageSize].
  change (URLSearchParams.set "pageSize" (number_to_string s)
            (URLSearchParams.set "page" (number_to_string p) URLSearchParams.new))
    with [("page"%string, number_to_string p); ("pageSize"%string, number_to_string s)].
  rewrite toString_two.
  change (urlencode "page") with "page"%string.
  change (urlencode "pageSize") with "pageSize"%string.
  rewrite !append_assoc. reflexivity.
Qed.

(** C6. [buildUrl] is a function of the base URL, the path and the
    parameters alone.  Its result is baseUrl + path, followed by nothing
    when there is no parameter object or both of its fields are missing,
    and otherwise by '?' and exactly the parameters that were given,
    [page] before [pageSize], each with its value as [URLSearchParams]
    writes it: the number printed, then form-urlencoded.  For a safe
    integer that is its decimal numeral, unchanged. *)
Theorem buildUrl_query (this : RamarisClient) (path : string) :
  buildUrl this path None = baseUrl this +:+ path ∧
  buildUrl this path (Some {| page := None; pageSize := None |}) = baseUrl this +:+ path ∧
  (∀ p, buildUrl this path (Some {| page := Some p; pageSize := None |})
        = baseUrl this +:+ path +:+ "?page=" +:+ urlencode (number_to_string p)) ∧
  (∀ s, buildUrl this path (Some {| page := None; pageSize := Some s |})
        = baseUrl this +:+ path +:+ "?pageSize=" +:+ urlencode (number_to_string s)) ∧
  (∀ p s, buildUrl this path (Some {| page := Some p; pageSize := Some s |})
          = baseUrl this +:+ path +:+ "?page=" +:+ urlencode (number_to_string p)
              +:+ "&pageSize=" +:+ urlencode (number_to_string s)) ∧
  (∀ z, safe z → urlencode (number_to_string (Int z)) = number_to_string (Int z)) ∧
  (∀ key snapshot params,
      buildUrl {| apiKey := key; baseUrl := baseUrl this; rateLimit := snapshot |} path params
      = buildUrl this path params).
Proof.
  split; [reflexivity|]. split; [reflexivity|].
  split; [apply buildUrl_page_encoded|]. split; [apply buildUrl_pageSize_encoded|].
  split; [apply buildUrl_both_encoded|]. split; [|reflexivity].
  intros z _. apply urlencode_number.
Qed.

(** ** The configuration *)

Lemma updateRateLimit_config this h :
  apiKey (updateRateLimit this h) = apiKey this ∧
  baseUrl (updateRateLimit this h) = baseUrl this.
Proof.
  unfold updateRateLimit.
  destruct (h !! "x-ratelimit-limit"), (h !! "x-ratelimit-remaining"),
    (h !! "x-ratelimit-reset"); try done.
  by destruct (_ && _).
Qed.

Lemma request_config fetch this path params :
  apiKey (client (request fetch this path params)) = apiKey this ∧
  baseUrl (client (request fetch this path params)) = baseUrl this.
Proof.
  unfold request.
  destruct (fetch (buildUrl this path params) (requestInit this)); cbn [client];
    [apply updateRateLimit_config|done].
Qed.

Lemma request_calls fetch this path params :
  calls (request fetch this path params) = [(buildUrl this path params, requestInit this)].
Proof.
  unfold request. by destruct (fetch (buildUrl this path params) (requestInit this)).
Qed.

Lemma perform_config fetch this c :
  apiKey (client (perform fetch this c)) = apiKey this ∧
  baseUrl (client (perform fetch this c)) = baseUrl this.
Proof. destruct c; apply request_config. Qed.

(** The configuration is an invariant of every sequence of calls. *)
Lemma run_config steps : ∀ this,
  apiKey (run this steps) = apiKey this ∧ baseUrl (run this steps) = baseUrl this.
Proof.
  induction steps as [|[fetch c] steps IH]; intros this; [done|].
  cbn [run]. destruct (IH (client (perform fetch this c))) as [-> ->].
  apply perform_config.
Qed.

(** C8. The constructor strips the slashes that end a supplied base URL:
    what is stored is the override without them and does not end with a
    slash.  A client made with 'https://x/v1/' requests
    'https://x/v1/strategies' for '/strategies'.  No request, and no
    sequence of calls of the public methods, changes the API key or the
    base URL. *)
Theorem baseUrl_normalised :
  (∀ key override,
      let this := constructor {| opt_apiKey := key; opt_baseUrl := Some override |} in
      baseUrl this = strip_trailing_slashes override ∧
      ends_with_slash (baseUrl this) = false ∧
      ∃ n, override = baseUrl this +:+ slashes n) ∧
  (∀ fetch key,
      let this := constructor {| opt_apiKey := key; opt_baseUrl := Some "https://x/v1/"%string |} in
      calls (strategies_list fetch this None)
      = [("https://x/v1/strategies"%string, requestInit this)]) ∧
  (∀ fetch this path params,
      apiKey (client (request fetch this path params)) = apiKey this ∧
      baseUrl (client (request fetch this path params)) = baseUrl this) ∧
  (∀ steps this,
      apiKey (run this steps) = apiKey this ∧
      baseUrl (run this steps) = baseUrl this).
Proof.
  split; [|split; [|split]].
  - intros key override this. split; [reflexivity|]. split.
    + apply strip_trailing_slashes_end.
    + apply strip_trailing_slashes_split.
  - intros fetch key this. unfold strategies_list, getPaginated.
    by rewrite request_calls.
  - apply request_config.
  - apply run_config.
Qed.

(** ** The properties at the sample inputs *)

Lemma rate_limit_error_on_429_witness :
  always rate_limited_response (buildUrl test_client "/strategies" None) (requestInit test_client)
    = Resolved rate_limited_response ∧
  Fetch.status rate_limited_response = 429 ∧
  result (request (always rate_limited_response) test_client "/strategies" None)
    = Throw (ThrowRateLimitError
               {| errors.super :=
                    {| errors.name := "RateLimitError"; errors.message := "Rate limit exceeded";
                       errors.code := VStr "RATE_LIMITED"; errors.status := 429 |};
                  errors.retryAfter := VNum (Int 1800) |}) ∧
  result (request (always (bare_response 429 null_fields_body)) test_client "/strategies" None)
    = Throw (ThrowRateLimitError
               {| errors.super :=
                    {| errors.name := "RateLimitError"; errors.message := "HTTP 429";
                       errors.code := VStr "RATE_LIMITED"; errors.status := 429 |};
                  errors.retryAfter := VNum (Int 0) |}) ∧
  result (request (always (plain_text_response 429)) test_client "/strategies" None)
    = Throw (ThrowRateLimitError
               {| errors.super :=
                    {| errors.name := "RateLimitError"; errors.message := "HTTP 429";
                       errors.code := VStr "RATE_LIMITED"; errors.status := 429 |};
                  errors.retryAfter := VNum (Int 0) |}).
Proof.
  split; [reflexivity|]. split; [reflexivity|]. split; [|split].
  - apply (proj1 (proj2 (rate_limit_error_on_429 (always rate_limited_response) test_client
                           "/strategies" None rate_limited_response eq_refl eq_refl)
                    "application/json"%string ""%string ""%string _
                    ltac:(vm_compute; reflexivity) eq_refl eq_refl)).
    vm_compute. reflexivity.
  - apply (proj1 (proj2 (rate_limit_error_on_429 (always (bare_response 429 null_fields_body))
                           test_client "/strategies" None
                           (bare_response 429 null_fields_body) eq_refl eq_refl)
                    "application/json"%string ""%string ""%string _
                    ltac:(vm_compute; reflexivity) eq_refl eq_refl)).
    vm_compute. reflexivity.
  - apply (proj1 (rate_limit_error_on_429 (always (plain_text_response 429)) test_client
                    "/strategies" None (plain_text_response 429) eq_refl eq_refl)).
    right. reflexivity.
Defined.

(** C1 as stated fails: the status is 429, the body is JSON whose
    error.message is an object with a [toString] of its own, and the call
    does not throw the rate-limit error: constructing it throws a
    TypeError, and that is thrown. *)
Lemma rate_limit_error_not_thrown :
  Fetch.status (bare_response 429 hidden_toString_body) = 429 ∧
  headers (bare_response 429 hidden_toString_body) !! "content-type"
    = Some "application/json"%string ∧
  json (bare_response 429 hidden_toString_body) = Some hidden_toString_body ∧
  reported hidden_toString_body "message" = Some (VObj {["toString" := VNull]}) ∧
  result (request (always (bare_response 429 hidden_toString_body)) test_client
            "/strategies" None) = Throw TypeError ∧
  is_typed_error TypeError = false.
Proof. repeat split; vm_compute; reflexivity. Qed.

(** C2 as stated fails: the three headers are present, the first with an
    empty value, and the snapshot is not overwritten: it stays absent. *)
Lemma snapshot_kept_on_empty_header :
  present (headers empty_limit_response) "x-ratelimit-limit" ∧
  present (headers empty_limit_response) "x-ratelimit-remaining" ∧
  present (headers empty_limit_response) "x-ratelimit-reset" ∧
  rateLimit (client (request (always empty_limit_response) test_client "/health" None))
    = None ∧
  rateLimit (client (request (always empty_limit_response) test_client "/health" None))
    ≠ Some {| limit := parseInt ""; remaining := parseInt "999";
              reset := parseInt "1700000000" |}.
Proof.
  assert (rateLimit (client (request (always empty_limit_response) test_client "/health" None))
          = None) as H by (vm_compute; reflexivity).
  split; [eexists; vm_compute; reflexivity|].
  split; [eexists; vm_compute; reflexivity|].
  split; [eexists; vm_compute; reflexivity|].
  split; [exact H|]. rewrite H. discriminate.
Qed.

Lemma rate_limit_snapshot_witness :
  always (mockResponse (VObj ∅) 500) (buildUrl test_client "/health" None) (requestInit test_client)
    = Resolved (mockResponse (VObj ∅) 500) ∧
  rateLimit (client (request (always (mockResponse (VObj ∅) 500)) test_client "/health" None))
    = Some {| limit := Int 1000; remaining := Int 999; reset := Int 1700000000 |} ∧
  client (request (always empty_limit_response) test_client "/health" None) = test_client.
Proof.
  split; [reflexivity|]. split.
  - apply (proj1 (rate_limit_snapshot (always (mockResponse (VObj ∅) 500)) test_client
                    "/health" None (mockResponse (VObj ∅) 500) eq_refl)
             "1000"%string "999"%string "1700000000"%string);
      try (vm_compute; reflexivity); discriminate.
  - apply (proj2 (rate_limit_snapshot (always empty_limit_response) test_client
                    "/health" None empty_limit_response eq_refl)
             "x-ratelimit-limit"%string).
    + apply list_elem_of_here.
    + right. vm_compute. reflexivity.
Defined.

(** C3 as stated fails, twice.  The status is 200 and the call does not
    return a value: it throws what [response.json()] rejected with.  The
    status is 500, the body is JSON whose error.message is an object
    with a [toString] of its own, and the call does not throw an error
    of the client's hierarchy: it throws the TypeError of constructing
    one. *)
Lemma request_throws_untyped :
  (200 ≤ Fetch.status html_page_response ≤ 299 ∧
   result (request (always html_page_response) test_client "/health" None)
     = Throw SyntaxError ∧
   is_typed_error SyntaxError = false) ∧
  (¬ (200 ≤ Fetch.status (bare_response 500 hidden_toString_body) ≤ 299) ∧
   json (bare_response 500 hidden_toString_body) = Some hidden_toString_body ∧
   result (request (always (bare_response 500 hidden_toString_body)) test_client
             "/health" None) = Throw TypeError ∧
   is_typed_error TypeError = false).
Proof.
  split.
  - split; [split; discriminate|]. split; reflexivity.
  - split; [intros [_ H]; apply H; reflexivity|].
    split; [reflexivity|]. split; [vm_compute; reflexivity|reflexivity].
Qed.

Lemma request_completion_witness :
  ¬ (200 ≤ Fetch.status (plain_text_response 502) ≤ 299) ∧
  (∃ e, result (request (always (plain_text_response 502)) test_client "/health" None)
          = Throw e ∧ is_typed_error e = true) ∧
  ¬ (200 ≤ Fetch.status (mockErrorResponse 404 "NOT_FOUND" "Strategy not found" None
                           json_headers) ≤ 299) ∧
  message_converts
    (VObj {["error" := VObj (<["code" := VStr "NOT_FOUND"]>
                               (<["message" := VStr "Strategy not found"]> ∅))]}) = true ∧
  (∃ e, result (request (always (mockErrorResponse 404 "NOT_FOUND" "Strategy not found" None
                                   json_headers)) test_client "/health" None)
          = Throw e ∧ is_typed_error e = true) ∧
  result (request (always (mockResponse paginated_envelope 200)) test_client "/health" None)
    = Return paginated_envelope.
Proof.
  assert (¬ (200 ≤ Fetch.status (plain_text_response 502) ≤ 299)) as H.
  { intros [_ H]. apply H. reflexivity. }
  assert (¬ (200 ≤ Fetch.status (mockErrorResponse 404 "NOT_FOUND" "Strategy not found" None
                                   json_headers) ≤ 299)) as H'.
  { intros [_ H']. apply H'. reflexivity. }
  assert (message_converts
            (VObj {["error" := VObj (<["code" := VStr "NOT_FOUND"]>
                                       (<["message" := VStr "Strategy not found"]> ∅))]})
          = true) as Hc by (vm_compute; reflexivity).
  split; [exact H|]. split; [|split; [exact H'|split; [exact Hc|split]]].
  - apply (proj1 (proj2 (proj1 (request_completion (always (plain_text_response 502))
                                  test_client "/health" None)
                           (plain_text_response 502) eq_refl H))).
    right. reflexivity.
  - apply (proj1 (proj2 (proj2 (proj1 (request_completion
                                         (always (mockErrorResponse 404 "NOT_FOUND"
                                                    "Strategy not found" None json_headers))
                                         test_client "/health" None)
                                  (mockErrorResponse 404 "NOT_FOUND" "Strategy not found" None
                                     json_headers) eq_refl H'))
                    "application/json"%string ""%string ""%string _
                    ltac:(vm_compute; reflexivity) eq_refl eq_refl) Hc).
  - apply (proj1 (proj2 (request_completion (always (mockResponse paginated_envelope 200))
                           test_client "/health" None))).
    exists (mockResponse paginated_envelope 200).
    split; [reflexivity|]. split; [split; discriminate|reflexivity].
Defined.

(** C4 as stated fails: the body is not JSON and the status is 429; the
    error thrown is the rate-limit error and its code is 'RATE_LIMITED',
    not 'UNKNOWN_ERROR'. *)
Lemma non_json_429_is_rate_limited :
  ¬ (200 ≤ Fetch.status (plain_text_response 429) ≤ 299) ∧
  headers (plain_text_response 429) !! "content-type" = Some "text/plain"%string ∧
  includes "text/plain" "application/json" = false ∧
  json (plain_text_response 429) = None ∧
  ∃ e : errors.RateLimitError,
    result (strategies_list (always (plain_text_response 429)) test_client None)
      = Throw (ThrowRateLimitError e) ∧
    errors.code e = VStr "RATE_LIMITED" ∧
    errors.code e ≠ VStr "UNKNOWN_ERROR".
Proof.
  split; [intros [_ H]; apply H; reflexivity|].
  split; [vm_compute; reflexivity|].
  split; [reflexivity|]. split; [reflexivity|].
  eexists. split; [vm_compute; reflexivity|]. split; [reflexivity|discriminate].
Qed.

Lemma non_json_error_body_witness :
  ¬ (200 ≤ Fetch.status (plain_text_response 502) ≤ 299) ∧
  json (plain_text_response 502) = None ∧
  result (request (always (plain_text_response 502)) test_client "/strategies" None)
    = Throw (ThrowRamarisError
               {| errors.name := "RamarisError"; errors.message := "HTTP 502";
                  errors.code := VStr "UNKNOWN_ERROR"; errors.status := 502 |}).
Proof.
  assert (¬ (200 ≤ Fetch.status (plain_text_response 502) ≤ 299)) as H.
  { intros [_ H]. apply H. reflexivity. }
  split; [exact H|]. split; [reflexivity|].
  apply (non_json_error_body (always (plain_text_response 502)) test_client "/strategies"
           None (plain_text_response 502) eq_refl H (or_intror eq_refl)).
Defined.

Lemma fetch_failure_is_network_error_witness :
  failing (ThrownOther (VStr "offline")) (buildUrl test_client "/health" None)
    (requestInit test_client) = Rejected (ThrownOther (VStr "offline")) ∧
  ∃ e : errors.RamarisError,
    result (request (failing (ThrownOther (VStr "offline"))) test_client "/health" None)
      = Throw (ThrowRamarisError e) ∧
    errors.code e = VStr "NETWORK_ERROR" ∧
    errors.status e = 0 ∧
    errors.message e = "Network error"%string.
Proof.
  split; [reflexivity|].
  apply (fetch_failure_is_network_error (failing (ThrownOther (VStr "offline"))) test_client "/health" None
           (ThrownOther (VStr "offline")) eq_refl).
Defined.

Lemma network_error_keeps_snapshot_witness :
  failing (ThrownError "Failed to fetch") (buildUrl test_client "/health" None)
    (requestInit test_client) = Rejected (ThrownError "Failed to fetch") ∧
  client (request (failing (ThrownError "Failed to fetch")) test_client "/health" None)
    = test_client ∧
  ∃ response,
    always (mockResponse (VObj ∅) 200) (buildUrl test_client "/health" None)
      (requestInit test_client) = Resolved response.
Proof.
  split; [reflexivity|]. split.
  - apply (proj1 (network_error_keeps_snapshot (failing (ThrownError "Failed to fetch"))
                    test_client "/health" None) (ThrownError "Failed to fetch") eq_refl).
  - apply (proj2 (network_error_keeps_snapshot (always (mockResponse (VObj ∅) 200))
                    test_client "/health" None)).
    vm_compute. discriminate.
Defined.

Lemma buildUrl_query_witness :
  safe 2 ∧ safe 50 ∧
  buildUrl test_client "/strategies" (Some {| page := Some (Int 2); pageSize := Some (Int 50) |})
    = "https://www.ramaris.app/api/v1/strategies?page=2&pageSize=50"%string ∧
  buildUrl test_client "/me/strategies/watchlist"
    (Some {| page := Some (Int 3); pageSize := None |})
    = "https://www.ramaris.app/api/v1/me/strategies/watchlist?page=3"%string ∧
  buildUrl test_client "/wallets" (Some {| page := None; pageSize := Some (Int 0) |})
    = "https://www.ramaris.app/api/v1/wallets?pageSize=0"%string ∧
  buildUrl test_client "/wallets" (Some {| page := None; pageSize := None |})
    = "https://www.ramaris.app/api/v1/wallets"%string.
Proof.
  assert (safe 2) as H2 by (split; discriminate).
  assert (safe 50) as H50 by (split; discriminate).
  assert (safe 3) as H3 by (split; discriminate).
  assert (safe 0) as H0 by (split; discriminate).
  split; [exact H2|]. split; [exact H50|]. split; [|split; [|split]].
  - destruct (buildUrl_query test_client "/strategies") as (_ & _ & _ & _ & Hb & Hs & _).
    rewrite Hb, (Hs 2 H2), (Hs 50 H50). reflexivity.
  - destruct (buildUrl_query test_client "/me/strategies/watchlist")
      as (_ & _ & Hp & _ & _ & Hs & _).
    rewrite Hp, (Hs 3 H3). reflexivity.
  - destruct (buildUrl_query test_client "/wallets") as (_ & _ & _ & Hp & _ & Hs & _).
    rewrite Hp, (Hs 0 H0). reflexivity.
  - destruct (buildUrl_query test_client "/wallets") as (_ & Hn & _). rewrite Hn. reflexivity.
Defined.

Lemma envelopes_witness :
  200 ≤ Fetch.status (mockResponse (VObj single_envelope) 200) ≤ 299 ∧
  single_envelope !! "data" = Some item ∧
  result (getSingle (always (mockResponse (VObj single_envelope) 200)) test_client "/wallets/456")
    = Return item ∧
  result (getPaginated (always (mockResponse paginated_envelope 200)) test_client "/wallets"
            (Some {| page := Some (Int 2); pageSize := None |}))
    = Return paginated_envelope.
Proof.
  assert (200 ≤ 200 ≤ 299) as H by (split; discriminate).
  split; [exact H|]. split; [vm_compute; reflexivity|]. split.
  - apply (proj1 (envelopes (always (mockResponse (VObj single_envelope) 200)) test_client
                    "/wallets/456" (mockResponse (VObj single_envelope) 200))
             single_envelope item eq_refl H eq_refl).
    vm_compute. reflexivity.
  - apply (proj2 (envelopes (always (mockResponse paginated_envelope 200)) test_client
                    "/wallets" (mockResponse paginated_envelope 200))
             (Some {| page := Some (Int 2); pageSize := None |}) paginated_envelope
             eq_refl H eq_refl).
Defined.

Lemma body_ignored_without_json_content_type_witness :
  includes "application/problem+json" "application/json" = false ∧
  json (problem_json_response 404) ≠ None ∧
  handleErrorResponse (problem_json_response 404)
    = Throw (ThrowRamarisError
               {| errors.name := "RamarisError"; errors.message := "HTTP 404";
                  errors.code := VStr "UNKNOWN_ERROR"; errors.status := 404 |}) ∧
  handleErrorResponse (problem_json_response 429)
    = Throw (ThrowRateLimitError
               {| errors.super :=
                    {| errors.name := "RateLimitError"; errors.message := "HTTP 429";
                       errors.code := VStr "RATE_LIMITED"; errors.status := 429 |};
                  errors.retryAfter := VNum (Int 0) |}).
Proof.
  assert (∀ st ct, headers (problem_json_response st) !! "content-type" = Some ct →
                   ¬ ∃ a b, ct = a +:+ "application/json" +:+ b) as H.
  { intros st ct Hct. assert (ct = "application/problem+json"%string) as ->.
    { vm_compute in Hct. congruence. }
    intros Hsub. apply includes_spec in Hsub. discriminate Hsub. }
  split; [reflexivity|]. split; [discriminate|]. split.
  - apply (body_ignored_without_json_content_type (problem_json_response 404) (H 404)).
  - apply (body_ignored_without_json_content_type (problem_json_response 429) (H 429)).
Defined.

Example text_json_is_not_read : includes "text/json" "application/json" = false.
Proof. reflexivity. Qed.

Example content_type_case_matters : includes "Application/JSON" "application/json" = false.
Proof. reflexivity. Qed.

(** * Further properties of the client *)

(** ** What a call sends *)

(** X1. Every public method calls [fetch] exactly once, whatever the
    network answers: a GET to the base URL followed by the path of the
    method and its pagination, with the headers Authorization: Bearer
    <apiKey> and Accept: application/json and no other. *)
Theorem public_call_sends_one_request (fetch : fetch_fn) (this : RamarisClient) (c : call) :
  calls (perform fetch this c)
  = [(buildUrl this (path_of c) (params_of c),
      {| init_method := "GET";
         init_headers := [("Authorization"%string, "Bearer " +:+ apiKey this);
                          ("Accept"%string, "application/json"%string)] |})].
Proof.
  destruct c; cbn [perform path_of params_of];
    unfold health, strategies_list, strategies_get, strategies_watchlist, wallets_list,
      wallets_get, me_profile, me_subscription, getPaginated, getSingle;
    cbn [calls]; apply request_calls.
Qed.

Lemma request_snapshot_irrelevant fetch this path params snapshot :
  let other := {| apiKey := apiKey this; baseUrl := baseUrl this; rateLimit := snapshot |} in
  calls (request fetch other path params) = calls (request fetch this path params) ∧
  result (request fetch other path params) = result (request fetch this path params).
Proof.
  intros other. unfold request.
  change (buildUrl other path params) with (buildUrl this path params).
  change (requestInit other) with (requestInit this).
  by destruct (fetch (buildUrl this path params) (requestInit this)).
Qed.

(** X2. The snapshot has no influence on a call: the client neither
    holds back nor changes a request because of the limits it has seen.
    With any other snapshot the same request is sent and the call
    completes the same way. *)
Theorem snapshot_does_not_affect_calls (fetch : fetch_fn) (this : RamarisClient)
    (c : call) (snapshot : option RateLimitInfo) :
  let other := {| apiKey := apiKey this; baseUrl := baseUrl this; rateLimit := snapshot |} in
  calls (perform fetch other c) = calls (perform fetch this c) ∧
  result (perform fetch other c) = result (perform fetch this c).
Proof.
  intros other. subst other.
  destruct c; cbn [perform];
    unfold health, strategies_list, strategies_get, strategies_watchlist, wallets_list,
      wallets_get, me_profile, me_subscription, getPaginated, getSingle;
    cbn [calls result];
    match goal with
    | |- context [request fetch this ?path ?params] =>
        destruct (request_snapshot_irrelevant fetch this path params snapshot) as [-> ->]
    end; done.
Qed.

(** ** The snapshot over time *)

Lemma updateRateLimit_complete this h :
  complete h = true →
  ∃ l r s, h !! "x-ratelimit-limit" = Some l ∧ h !! "x-ratelimit-remaining" = Some r ∧
           h !! "x-ratelimit-reset" = Some s ∧
           updateRateLimit this h =
             {| apiKey := apiKey this; baseUrl := baseUrl this;
                rateLimit := Some {| limit := parseInt l; remaining := parseInt r;
                                     reset := parseInt s |} |}.
Proof.
  unfold complete, updateRateLimit. intros H.
  destruct (h !! "x-ratelimit-limit") as [l|]; [|done].
  destruct (h !! "x-ratelimit-remaining") as [r|];
    [|by rewrite andb_false_r in H].
  destruct (h !! "x-ratelimit-reset") as [s|]; [|by rewrite andb_false_r in H].
  exists l, r, s. by rewrite H.
Qed.

Lemma updateRateLimit_incomplete this h :
  complete h = false → updateRateLimit this h = this.
Proof.
  unfold complete, updateRateLimit. intros H.
  destruct (h !! "x-ratelimit-limit") as [l|]; [|done].
  destruct (h !! "x-ratelimit-remaining") as [r|]; [|done].
  destruct (h !! "x-ratelimit-reset") as [s|]; [|done].
  by rewrite H.
Qed.

(** X3. Of two responses in a row the later one decides: when its three
    rate-limit headers carry a value the snapshot is what that response
    alone would have set, and when they do not the snapshot is what the
    earlier response left.  Seeing the same headers twice is seeing them
    once. *)
Theorem updateRateLimit_last_complete_wins (this : RamarisClient) (h1 h2 : Headers) :
  updateRateLimit (updateRateLimit this h1) h2
  = (if complete h2 then updateRateLimit this h2 else updateRateLimit this h1) ∧
  updateRateLimit (updateRateLimit this h1) h1 = updateRateLimit this h1.
Proof.
  assert (∀ h, updateRateLimit (updateRateLimit this h1) h
               = if complete h then updateRateLimit this h else updateRateLimit this h1) as H.
  { intros h. destruct (complete h) eqn:Hc.
    - destruct (updateRateLimit_complete (updateRateLimit this h1) h Hc)
        as (l & r & s & Hl & Hr & Hs & ->).
      destruct (updateRateLimit_complete this h Hc) as (l' & r' & s' & Hl' & Hr' & Hs' & ->).
      destruct (updateRateLimit_config this h1) as [-> ->]. congruence.
    - by apply updateRateLimit_incomplete. }
  split; [apply H|]. rewrite H. destruct (complete h1) eqn:Hc; [done|].
  by rewrite (updateRateLimit_incomplete this h1 Hc).
Qed.

Lemma updateRateLimit_keeps_known this h :
  is_Some (rateLimit this) → is_Some (rateLimit (updateRateLimit this h)).
Proof.
  intros H. destruct (complete h) eqn:Hc.
  - destruct (updateRateLimit_complete this h Hc) as (l & r & s & _ & _ & _ & ->). by eexists.
  - by rewrite (updateRateLimit_incomplete this h Hc).
Qed.

Lemma request_keeps_known fetch this path params :
  is_Some (rateLimit this) → is_Some (rateLimit (client (request fetch this path params))).
Proof.
  intros H. unfold request.
  destruct (fetch (buildUrl this path params) (requestInit this)); cbn [client];
    [by apply updateRateLimit_keeps_known|done].
Qed.

(** X4. The snapshot is never cleared: once a client knows its limits it
    knows them after any sequence of calls, whether they succeed, fail
    with an error response or fail on the network. *)
Theorem snapshot_never_cleared (steps : list (fetch_fn * call)) (this : RamarisClient) :
  is_Some (rateLimit this) → is_Some (rateLimit (run this steps)).
Proof.
  revert this. induction steps as [|[fetch c] steps IH]; intros this H; [done|].
  cbn [run]. apply IH. destruct c; by apply request_keeps_known.
Qed.

(** ** Single items *)

(** X5. A single-item call on a 2xx response reads [data] from whatever the
    body parsed to: a body that is null makes the call throw a TypeError,
    which is not an error of the client's hierarchy; an object without
    [data], and any body that is not an object, make it return
    [undefined]. *)
Theorem getSingle_reads_data (fetch : fetch_fn) (this : RamarisClient) (path : string)
    (response : Response) (v : value) :
  fetch (buildUrl this path None) (requestInit this) = Resolved response →
  200 ≤ Fetch.status response ≤ 299 →
  json response = Some v →
  result (getSingle fetch this path) =
    match v with
    | VNull | VUndefined => Throw TypeError
    | VObj m => Return (default VUndefined (m !! "data"))
    | VBool _ | VNum _ | VStr _ | VArr _ => Return VUndefined
    end.
Proof.
  intros H Hst Hj. apply ok_spec in Hst.
  unfold getSingle. cbn [result]. rewrite (request_ok fetch _ _ _ _ H Hst).
  unfold await_json. rewrite Hj. by destruct v.
Qed.

(** ** Error responses with a JSON body *)

(** X7. An error response that is not a 429, whose content type
    contains application/json, whose body parses and whose message, if
    the body reports one, converts to a string, throws the base error
    with the status of the response.  Code and message are what the body
    reports under [error] and default one by one: a body that reports a
    message but no code has code 'UNKNOWN_ERROR' with its own message,
    and one that reports a code but no message has message 'HTTP '
    followed by the status. *)
Theorem json_error_body_fields (fetch : fetch_fn) (this : RamarisClient) (path : string)
    (params : option PaginationParams) (response : Response) (ct a b : string)
    (body : value) :
  fetch (buildUrl this path params) (requestInit this) = Resolved response →
  ¬ (200 ≤ Fetch.status response ≤ 299) →
  Fetch.status response ≠ 429 →
  headers response !! "content-type" = Some ct →
  ct = a +:+ "application/json" +:+ b →
  json response = Some body →
  message_converts body = true →
  ∃ e : errors.RamarisError,
    result (request fetch this path params) = Throw (ThrowRamarisError e) ∧
    errors.status e = Fetch.status response ∧
    errors.code e = default (VStr "UNKNOWN_ERROR") (there (reported body "code")) ∧
    (∀ m, reported body "message" = Some (VStr m) → errors.message e = m) ∧
    (there (reported body "message") = None →
     errors.message e = "HTTP " +:+ number_to_string (Int (Fetch.status response))).
Proof.
  intros H Hst H429 Hh Hct Hj Hc.
  rewrite (request_resolved fetch _ _ _ _ H). cbn [result].
  rewrite (ok_false _ Hst). cbn [negb].
  rewrite (handleErrorResponse_reported _ _ (errorBody_read _ _ _ _ _ Hh Hct Hj)).
  apply Z.eqb_neq in H429. rewrite H429.
  destruct (proj1 (message_converts_spec body
                     ("HTTP " +:+ number_to_string (Int (Fetch.status response)))) Hc)
    as [msg Hmsg].
  rewrite Hmsg. eexists. split; [reflexivity|]. split; [reflexivity|].
  split; [reflexivity|]. cbn [errors.message]. split.
  - intros m Hm. rewrite Hm in Hmsg. cbn [there default from_option] in Hmsg.
    unfold id in Hmsg. cbn [ToString] in Hmsg. congruence.
  - intros Hm. rewrite Hm in Hmsg. cbn [default from_option ToString] in Hmsg.
    congruence.
Qed.

(** X8. An error object that is not an object (the body is an array, a
    string or a number, has no [error], or has a string or null for it)
    counts for nothing: the call throws what it throws when there is no
    body at all. *)
Theorem malformed_error_object_uses_defaults (response : Response) (body : value) :
  errorBody response = body →
  (∀ m, get_opt body p_error ≠ VObj m) →
  handleErrorResponse response =
    (if Fetch.status response =? 429 then
       Throw (ThrowRateLimitError
                {| errors.super :=
                     {| errors.name := "RateLimitError"; errors.message := "HTTP 429";
                        errors.code := VStr "RATE_LIMITED"; errors.status := 429 |};
                   errors.retryAfter := VNum (Int 0) |})
     else
       Throw (ThrowRamarisError
                {| errors.name := "RamarisError";
                   errors.message := "HTTP " +:+ number_to_string (Int (Fetch.status response));
                   errors.code := VStr "UNKNOWN_ERROR";
                   errors.status := Fetch.status response |})).
Proof.
  intros Hb Hne.
  assert (∀ p, get_opt (get_opt body p_error) p = VUndefined) as Hf.
  { intros p. destruct (get_opt body p_error) as [| | | | | |m] eqn:E; try reflexivity.
    destruct (Hne m eq_refl). }
  unfold handleErrorResponse. rewrite Hb, !Hf. cbn [coalesce nullish].
  destruct (Fetch.status response =? 429) eqn:E; [|reflexivity].
  apply Z.eqb_eq in E. by rewrite E.
Qed.

(** ** Which error, and with which status *)

(** X9. The rate-limit error is thrown for a response with status 429
    and for nothing else: not for another status, not for a failure of
    the network.  Whenever it is thrown its code is 'RATE_LIMITED' and
    its status 429. *)
Theorem rate_limit_error_only_on_429 (fetch : fetch_fn) (this : RamarisClient)
    (path : string) (params : option PaginationParams) (e : errors.RateLimitError) :
  result (request fetch this path params) = Throw (ThrowRateLimitError e) →
  (∃ response,
      fetch (buildUrl this path params) (requestInit this) = Resolved response ∧
      Fetch.status response = 429) ∧
  errors.code e = VStr "RATE_LIMITED" ∧
  errors.status e = 429 ∧
  errors.name e = "RateLimitError"%string.
Proof.
  destruct (fetch (buildUrl this path params) (requestInit this)) as [response|err] eqn:H.
  - rewrite (request_resolved fetch _ _ _ _ H). cbn [result].
    destruct (ok response) eqn:Hok; cbn [negb].
    + unfold await_json. destruct (json response); discriminate.
    + rewrite (handleErrorResponse_reported response _ eq_refl).
      destruct (ToString _); [|discriminate].
      destruct (Fetch.status response =? 429) eqn:E; [|discriminate].
      apply Z.eqb_eq in E. intros [= <-]. split; [by exists response|done].
  - rewrite (request_rejected fetch _ _ _ _ H). discriminate.
Qed.

(** X10. The status of an error of the client, thrown by a request, is
    0 when the network failed and otherwise the status of the response,
    which is outside [200,299]: an error never carries a 2xx status. *)
Theorem thrown_status (fetch : fetch_fn) (this : RamarisClient) (path : string)
    (params : option PaginationParams) (e : exn) (b : errors.RamarisError) :
  result (request fetch this path params) = Throw e →
  as_RamarisError e = Some b →
  ((∃ err, fetch (buildUrl this path params) (requestInit this) = Rejected err ∧
           errors.status b = 0) ∨
   (∃ response, fetch (buildUrl this path params) (requestInit this) = Resolved response ∧
                errors.status b = Fetch.status response)) ∧
  ¬ (200 ≤ errors.status b ≤ 299).
Proof.
  destruct (fetch (buildUrl this path params) (requestInit this)) as [response|err] eqn:H.
  - rewrite (request_resolved fetch _ _ _ _ H). cbn [result].
    destruct (ok response) eqn:Hok; cbn [negb].
    + unfold await_json. destruct (json response); [discriminate|].
      intros [= <-]. discriminate.
    + assert (¬ (200 ≤ Fetch.status response ≤ 299)) as Hst.
      { rewrite <- ok_spec. by rewrite Hok. }
      rewrite (handleErrorResponse_reported response _ eq_refl).
      destruct (ToString _); [|intros [= <-]; discriminate].
      destruct (Fetch.status response =? 429) eqn:E.
      * apply Z.eqb_eq in E. intros [= <-] [= <-]. cbn. split; [|lia].
        right. by exists response.
      * intros [= <-] [= <-]. cbn. split; [|done]. right. by exists response.
  - rewrite (request_rejected fetch _ _ _ _ H). intros [= <-] [= <-]. cbn.
    split; [|lia]. left. by exists err.
Qed.

(** ** The base URL *)

(** X11. The constructor removes the slashes at the end of an override
    and nothing else: a base that does not end with a slash is stored as
    it is, however many slashes follow it, and a URL is the base followed
    by the path.  An override that is empty or made of slashes only
    gives an empty base: the default is not used in its place. *)
Theorem constructor_strips_exactly (key s path : string) (n : nat) :
  ends_with_slash s = false →
  let this := constructor {| opt_apiKey := key; opt_baseUrl := Some (s +:+ slashes n) |} in
  baseUrl this = s ∧
  buildUrl this path None = s +:+ path ∧
  baseUrl (constructor {| opt_apiKey := key; opt_baseUrl := Some (slashes n) |}) = ""%string.
Proof.
  intros H this.
  assert (baseUrl this = s) as Hb by apply (strip_trailing_slashes_unique s n H).
  split; [exact Hb|]. split.
  - unfold buildUrl. by rewrite Hb.
  - apply (strip_trailing_slashes_unique "" n eq_refl).
Qed.

(** ** Printing and parsing numbers *)

Lemma digits_acc (d : Decimal.uint) : ∀ acc : positive,
  digits (Some (Z.pos acc)) (NilEmpty.string_of_uint d)
  = Some (Z.pos (Pos.of_uint_acc d acc)).
Proof.
  induction d; intros acc; [reflexivity|..];
    cbn [NilEmpty.string_of_uint digits Pos.of_uint_acc];
    match goal with
    | |- context [digit_of ?c] =>
        let k := eval vm_compute in (digit_of c) in change (digit_of c) with k
    end;
    cbn [default from_option]; unfold id; rewrite <- IHd; do 2 f_equal; lia.
Qed.

Lemma digits_uint (d : Decimal.uint) :
  digits (Some 0) (NilEmpty.string_of_uint d) = Some (Z.of_N (Pos.of_uint d)).
Proof.
  induction d; [reflexivity|..];
    cbn [NilEmpty.string_of_uint digits Pos.of_uint];
    match goal with
    | |- context [digit_of ?c] =>
        let k := eval vm_compute in (digit_of c) in change (digit_of c) with k
    end;
    cbn [default from_option]; unfold id; [exact IHd|..];
    match goal with
    | |- digits (Some ?z) _ = _ =>
        let k := eval vm_compute in z in change z with k
    end; apply digits_acc.
Qed.

(** Parsing the digits of a number that is not zero gives the number. *)
Lemma parseInt_uint (p : positive) :
  parseInt (NilEmpty.string_of_uint (Pos.to_uint p)) = Int (Z.pos p) ∧
  parseInt (String "-" (NilEmpty.string_of_uint (Pos.to_uint p))) = Int (Z.neg p) ∧
  NilZero.string_of_uint (Pos.to_uint p) = NilEmpty.string_of_uint (Pos.to_uint p).
Proof.
  pose proof (DecimalPos.Unsigned.of_to p) as Hp.
  pose proof (digits_uint (Pos.to_uint p)) as Hd. rewrite Hp in Hd.
  destruct (Pos.to_uint p) as [|d|d|d|d|d|d|d|d|d|d]; [discriminate Hp|..];
    (split; [|split; [|reflexivity]]);
    unfold parseInt; cbn [NilEmpty.string_of_uint trim_start is_white_space] in *;
    cbn [digits] in *;
    match goal with
    | H : context [digit_of ?c] |- _ =>
        let k := eval vm_compute in (digit_of c) in
        change (digit_of c) with k in H; change (digit_of c) with k
    end;
    cbn [default from_option] in *; unfold id in *;
    match goal with
    | H : digits (Some ?z) _ = _ |- _ =>
        let k := eval vm_compute in z in change z with k in H
    end;
    match goal with
    | |- context [digits (Some ?z) _] =>
        let k := eval vm_compute in z in change z with k
    end;
    by rewrite Hd.
Qed.

(** [parseInt] reads back what printing a number wrote. *)
Lemma parseInt_number_to_string (n : number) : parseInt (number_to_string n) = n.
Proof.
  destruct n as [|[|p|p]]; [reflexivity|reflexivity|..];
    destruct (parseInt_uint p) as (Hpos & Hneg & Hz);
    unfold number_to_string; cbn [Z.to_int NilZero.string_of_int]; rewrite Hz; assumption.
Qed.

Lemma number_to_string_inj (n m : number) :
  number_to_string n = number_to_string m → n = m.
Proof.
  intros H. rewrite <- (parseInt_number_to_string n), <- (parseInt_number_to_string m).
  by rewrite H.
Qed.

Lemma number_to_string_nonempty (n : number) : number_to_string n ≠ ""%string.
Proof.
  destruct n as [|z]; [discriminate|].
  unfold number_to_string, NilZero.string_of_int, NilZero.string_of_uint.
  destruct (Z.to_int z) as [d|d]; destruct d; discriminate.
Qed.

Lemma string_of_uint_chars (d : Decimal.uint) :
  string_forall number_char (NilEmpty.string_of_uint d) = true.
Proof. induction d; [reflexivity|..]; exact IHd. Qed.

Lemma number_to_string_chars (n : number) :
  string_forall number_char (number_to_string n) = true.
Proof.
  destruct n as [|z]; [reflexivity|].
  unfold number_to_string, NilZero.string_of_int, NilZero.string_of_uint.
  destruct (Z.to_int z) as [d|d]; destruct d; try reflexivity;
    cbn [string_forall number_char andb];
    match goal with
    | |- string_forall _ (NilEmpty.string_of_uint ?u) = true => apply (string_of_uint_chars u)
    end.
Qed.

(** A string of characters that satisfy [P] ends where the first
    character that does not satisfy it stands. *)
Lemma split_at_stop (P : ascii → bool) (c : ascii) (x : string) : ∀ x' r r',
  string_forall P x = true → string_forall P x' = true → P c = false →
  x +:+ String c r = x' +:+ String c r' → x = x' ∧ r = r'.
Proof.
  induction x as [|a x IH]; intros [|a' x'] r r' Hx Hx' Hc H;
    rewrite ?append_cons, ?append_nil_l in H; simplify_eq/=.
  - done.
  - apply andb_true_iff in Hx' as [Ha _]. congruence.
  - apply andb_true_iff in Hx as [Ha _]. congruence.
  - apply andb_true_iff in Hx as [_ Hx]. apply andb_true_iff in Hx' as [_ Hx'].
    destruct (IH x' r r' Hx Hx' Hc) as [-> ->]; done.
Qed.

Lemma no_stop (P : ascii → bool) (c : ascii) (x : string) : ∀ x' r,
  string_forall P x = true → P c = false → x ≠ x' +:+ String c r.
Proof.
  induction x as [|a x IH]; intros [|a' x'] r Hx Hc H;
    rewrite ?append_cons, ?append_nil_l in H; simplify_eq/=.
  - apply andb_true_iff in Hx as [Ha _]. congruence.
  - apply andb_true_iff in Hx as [_ Hx]. by apply (IH x' r Hx Hc).
Qed.

Lemma buildUrl_query_of (this : RamarisClient) (path : string)
    (params : option PaginationParams) :
  buildUrl this path params = baseUrl this +:+ path +:+ query_of params.
Proof.
  destruct params as [[[p|] [s|]]|]; unfold query_of; cbn [given page pageSize].
  - apply buildUrl_both.
  - apply buildUrl_page.
  - apply buildUrl_pageSize.
  - by rewrite append_nil_r.
  - by rewrite append_nil_r.
Qed.

Lemma query_of_inj (p1 p2 : option PaginationParams) :
  query_of p1 = query_of p2 → given p1 = given p2.
Proof.
  unfold query_of.
  destruct (given p1) as [[a|] [b|]], (given p2) as [[a'|] [b'|]]; intros H;
    rewrite ?append_cons, ?append_nil_l in H; simplify_eq/=; try done;
    assert (number_char "&" = false) as Hamp by reflexivity.
  - (* both, both *)
    destruct (split_at_stop number_char "&" _ _ _ _
                (number_to_string_chars a) (number_to_string_chars a') Hamp H) as [Ha Hb].
    rewrite ?append_cons, ?append_nil_l in Hb. simplify_eq/=.
    by rewrite (number_to_string_inj _ _ Ha), (number_to_string_inj b b').
  - (* both, page *)
    symmetry in H. destruct (no_stop number_char "&" _ _ _ (number_to_string_chars a') Hamp H).
  - (* page, both *)
    destruct (no_stop number_char "&" _ _ _ (number_to_string_chars a) Hamp H).
  - by rewrite (number_to_string_inj a a').
  - by rewrite (number_to_string_inj b b').
Qed.

(** ** Round trips *)

(** X12. When the three rate-limit headers of a response carry the
    decimal numerals of three safe integers, negative ones included,
    the snapshot after the call holds exactly these integers, whatever
    the status of the response. *)
Theorem snapshot_holds_integers_sent (fetch : fetch_fn) (this : RamarisClient)
    (path : string) (params : option PaginationParams) (response : Response) (l r s : Z) :
  safe l → safe r → safe s →
  fetch (buildUrl this path params) (requestInit this) = Resolved response →
  headers response !! "x-ratelimit-limit" = Some (number_to_string (Int l)) →
  headers response !! "x-ratelimit-remaining" = Some (number_to_string (Int r)) →
  headers response !! "x-ratelimit-reset" = Some (number_to_string (Int s)) →
  rateLimit (client (request fetch this path params))
  = Some {| limit := Int l; remaining := Int r; reset := Int s |}.
Proof.
  intros _ _ _ H Hl Hr Hs. rewrite (request_resolved fetch _ _ _ _ H). cbn [client].
  unfold updateRateLimit. rewrite Hl, Hr, Hs. cbn [truthy].
  rewrite !(proj2 (String.eqb_neq _ _) (number_to_string_nonempty _)). cbn [negb andb].
  by rewrite !parseInt_number_to_string.
Qed.

(** X13. The URL tells which pagination was given: for one client and
    one path, two parameter objects give the same URL exactly when they
    give the same [page] and the same [pageSize], a missing object
    counting as one without fields. *)
Theorem buildUrl_determines_params (this : RamarisClient) (path : string)
    (p1 p2 : option PaginationParams) :
  buildUrl this path p1 = buildUrl this path p2 ↔ given p1 = given p2.
Proof.
  rewrite !buildUrl_query_of. split.
  - intros H. apply (inj (String.app (baseUrl this))) in H.
    apply (inj (String.app path)) in H. by apply query_of_inj.
  - intros H. unfold query_of. by rewrite H.
Qed.

(** ** Every public method *)

(** X14. When the network fails, every public method throws the same
    error, the base error with code 'NETWORK_ERROR' and status 0 that
    carries the message of the failure, and leaves the client as it
    was. *)
Theorem public_call_network_failure (err : thrown) (this : RamarisClient) (c : call) :
  result (perform (failing err) this c)
  = Throw (ThrowRamarisError
             {| errors.name := "RamarisError";
                errors.message := match err with
                                  | ThrownError msg => msg
                                  | ThrownOther _ => "Network error"
                                  end;
                errors.code := VStr "NETWORK_ERROR";
                errors.status := 0 |}) ∧
  client (perform (failing err) this c) = this.
Proof.
  destruct c; cbn [perform];
    unfold health, strategies_list, strategies_get, strategies_watchlist, wallets_list,
      wallets_get, me_profile, me_subscription, getPaginated, getSingle;
    cbn [result client];
    match goal with
    | |- context [request (failing err) this ?path ?params] =>
        rewrite (request_rejected (failing err) this path params err eq_refl)
    end; done.
Qed.

(** X15. What is thrown for a response outside [200,299] is decided by
    the response alone: every public method, on every client, throws
    the same thing for it, and none returns. *)
Theorem public_call_error_response (response : Response) :
  ¬ (200 ≤ Fetch.status response ≤ 299) →
  ∃ e, handleErrorResponse response = Throw e ∧
       ∀ this c, result (perform (always response) this c) = Throw e.
Proof.
  intros Hst. destruct (handleErrorResponse_never_returns response) as [e He].
  exists e. split; [exact He|]. intros this c.
  destruct c; cbn [perform];
    unfold health, strategies_list, strategies_get, strategies_watchlist, wallets_list,
      wallets_get, me_profile, me_subscription, getPaginated, getSingle;
    cbn [result];
    match goal with
    | |- context [request (always response) this ?path ?params] =>
        rewrite (request_resolved (always response) this path params response eq_refl)
    end; cbn [result]; rewrite (ok_false _ Hst); cbn [negb]; by rewrite He.
Qed.

(** ** The further properties at sample inputs *)

Lemma snapshot_never_cleared_witness :
  is_Some (rateLimit informed_client) ∧
  is_Some (rateLimit (run informed_client
                        [(failing (ThrownError "Failed to fetch"), Health);
                         (always (bare_response 500 VNull), MeProfile);
                         (always (plain_text_response 502), WalletsList None)])).
Proof.
  assert (is_Some (rateLimit informed_client)) as H by (eexists; reflexivity).
  split; [exact H|]. apply (snapshot_never_cleared _ informed_client H).
Defined.

Lemma getSingle_reads_data_witness :
  200 ≤ Fetch.status (mockResponse VNull 200) ≤ 299 ∧
  json (mockResponse VNull 200) = Some VNull ∧
  result (getSingle (always (mockResponse VNull 200)) test_client "/me/profile")
    = Throw TypeError.
Proof.
  assert (200 ≤ 200 ≤ 299) as H by (split; discriminate).
  split; [exact H|]. split; [reflexivity|].
  apply (getSingle_reads_data (always (mockResponse VNull 200)) test_client "/me/profile"
           (mockResponse VNull 200) VNull eq_refl H eq_refl).
Defined.

Lemma json_error_body_fields_witness :
  ¬ (200 ≤ 404 ≤ 299) ∧
  message_converts
    (VObj {["error" := VObj (<["code" := VStr "NOT_FOUND"]>
                               (<["message" := VStr "Strategy not found"]> ∅))]}) = true ∧
  ∃ e : errors.RamarisError,
    result (request (always (mockErrorResponse 404 "NOT_FOUND" "Strategy not found" None
                               json_headers)) test_client "/strategies/x" None)
      = Throw (ThrowRamarisError e) ∧
    errors.status e = 404 ∧
    errors.code e = VStr "NOT_FOUND" ∧
    errors.message e = "Strategy not found"%string.
Proof.
  assert (¬ (200 ≤ 404 ≤ 299)) as H by (intros [_ H]; apply H; reflexivity).
  assert (message_converts
            (VObj {["error" := VObj (<["code" := VStr "NOT_FOUND"]>
                                       (<["message" := VStr "Strategy not found"]> ∅))]})
          = true) as Hc by (vm_compute; reflexivity).
  split; [exact H|]. split; [exact Hc|].
  destruct (json_error_body_fields
              (always (mockErrorResponse 404 "NOT_FOUND" "Strategy not found" None json_headers))
              test_client "/strategies/x" None
              (mockErrorResponse 404 "NOT_FOUND" "Strategy not found" None json_headers)
              "application/json" "" "" _ eq_refl H ltac:(discriminate)
              ltac:(vm_compute; reflexivity) eq_refl eq_refl Hc)
    as (e & He & Hs & Hcode & Hm & _).
  exists e. split; [exact He|]. split; [exact Hs|]. split.
  - rewrite Hcode. vm_compute. reflexivity.
  - apply Hm. vm_compute. reflexivity.
Defined.

Lemma malformed_error_object_uses_defaults_witness :
  errorBody (bare_response 500 (VArr [VStr "oops"])) = VArr [VStr "oops"] ∧
  handleErrorResponse (bare_response 500 (VArr [VStr "oops"]))
    = Throw (ThrowRamarisError
               {| errors.name := "RamarisError"; errors.message := "HTTP 500";
                  errors.code := VStr "UNKNOWN_ERROR"; errors.status := 500 |}).
Proof.
  assert (errorBody (bare_response 500 (VArr [VStr "oops"])) = VArr [VStr "oops"]) as H
    by (vm_compute; reflexivity).
  split; [exact H|].
  apply (malformed_error_object_uses_defaults (bare_response 500 (VArr [VStr "oops"]))
           (VArr [VStr "oops"]) H).
  intros m. discriminate.
Defined.

Lemma rate_limit_error_only_on_429_witness :
  ∃ e : errors.RateLimitError,
    result (request (always rate_limited_response) test_client "/wallets" None)
      = Throw (ThrowRateLimitError e) ∧
    (∃ response,
        always rate_limited_response (buildUrl test_client "/wallets" None)
          (requestInit test_client) = Resolved response ∧
        Fetch.status response = 429) ∧
    errors.status e = 429.
Proof.
  eexists. split; [vm_compute; reflexivity|].
  match goal with
  | |- (?A ∧ ?B) =>
      assert (result (request (always rate_limited_response) test_client "/wallets" None)
              = Throw (ThrowRateLimitError
                         {| errors.super :=
                              {| errors.name := "RateLimitError";
                                 errors.message := "Rate limit exceeded";
                                 errors.code := VStr "RATE_LIMITED"; errors.status := 429 |};
                            errors.retryAfter := VNum (Int 1800) |})) as H
        by (vm_compute; reflexivity)
  end.
  destruct (rate_limit_error_only_on_429 _ _ _ _ _ H) as (Hr & _ & Hs & _).
  split; [exact Hr|exact Hs].
Defined.

Lemma thrown_status_witness :
  ¬ (200 ≤ 0 ≤ 299) ∧
  result (request (failing (ThrownError "Failed to fetch")) test_client "/health" None)
    = Throw (ThrowRamarisError
               {| errors.name := "RamarisError"; errors.message := "Failed to fetch";
                  errors.code := VStr "NETWORK_ERROR"; errors.status := 0 |}).
Proof.
  assert (result (request (failing (ThrownError "Failed to fetch")) test_client "/health" None)
          = Throw (ThrowRamarisError
                     {| errors.name := "RamarisError"; errors.message := "Failed to fetch";
                        errors.code := VStr "NETWORK_ERROR"; errors.status := 0 |})) as H
    by reflexivity.
  split; [|exact H].
  apply (thrown_status _ _ _ _ _ _ H eq_refl).
Defined.

Lemma constructor_strips_exactly_witness :
  ends_with_slash "https://x/v1" = false ∧
  baseUrl (constructor {| opt_apiKey := "k"; opt_baseUrl := Some "https://x/v1//"%string |})
    = "https://x/v1"%string.
Proof.
  split; [reflexivity|].
  apply (constructor_strips_exactly "k" "https://x/v1" "/strategies" 2 eq_refl).
Defined.

Lemma snapshot_holds_integers_sent_witness :
  headers (mockErrorResponse 429 "RATE_LIMITED" "Rate limit exceeded" (Some 1800)
             (rate_headers "100" "-1" "1707667200" json_headers)) !! "x-ratelimit-remaining"
    = Some (number_to_string (Int (-1))) ∧
  rateLimit (client (request
                       (always (mockErrorResponse 429 "RATE_LIMITED" "Rate limit exceeded"
                                  (Some 1800)
                                  (rate_headers "100" "-1" "1707667200" json_headers)))
                       test_client "/wallets" None))
    = Some {| limit := Int 100; remaining := Int (-1); reset := Int 1707667200 |}.
Proof.
  split; [vm_compute; reflexivity|].
  apply (snapshot_holds_integers_sent _ test_client "/wallets" None _ 100 (-1) 1707667200
           ltac:(split; discriminate) ltac:(split; discriminate) ltac:(split; discriminate)
           eq_refl); vm_compute; reflexivity.
Defined.

Lemma buildUrl_determines_params_witness :
  given None = given (Some {| page := None; pageSize := None |}) ∧
  buildUrl test_client "/wallets" None
    = buildUrl test_client "/wallets" (Some {| page := None; pageSize := None |}) ∧
  (buildUrl test_client "/wallets" (Some {| page := Some (Int 2); pageSize := None |})
   = buildUrl test_client "/wallets" (Some {| page := Some (Int 2); pageSize := Some (Int 10) |})
   → False).
Proof.
  split; [reflexivity|]. split.
  - apply (proj2 (buildUrl_determines_params test_client "/wallets" None
                    (Some {| page := None; pageSize := None |})) eq_refl).
  - intros H.
    apply (proj1 (buildUrl_determines_params test_client "/wallets" _ _)) in H.
    discriminate H.
Defined.

Lemma public_call_error_response_witness :
  ¬ (200 ≤ Fetch.status (plain_text_response 503) ≤ 299) ∧
  ∃ e, handleErrorResponse (plain_text_response 503) = Throw e ∧
       ∀ this c, result (perform (always (plain_text_response 503)) this c) = Throw e.
Proof.
  assert (¬ (200 ≤ Fetch.status (plain_text_response 503) ≤ 299)) as H.
  { intros [_ H]. apply H. reflexivity. }
  split; [exact H|]. apply (public_call_error_response (plain_text_response 503) H).
Defined.
